(** * ipmmap: the struct memory-map managers

    A shallow embedding of [ipmmap/struct_mmap_manager.py]: the classes
    [BaseStructMmapManager], [DataStructMmapReader], [DataStructMmapEditor]
    and [DataStructMmapManager], over a byte-level model of the mapped file
    and of the ctypes structures laid over it. *)

From Stdlib Require Import ZArith Lia List Bool Floats.SpecFloat.
From Stdlib Require Import Strings.String Strings.Ascii DecimalString.
From coqutil Require Import Byte Word.LittleEndianList.
From stdpp Require Import base option list strings gmap.

Local Open Scope string_scope.
Local Open Scope list_scope.

(** ** Exceptions and results *)

(** The exceptions a call can end with.  The first group is what the Python
    code of this file, ctypes, mmap and the file system raise.  The second
    group is the vocabulary of the specification; no statement of the source
    file raises any of them. *)
Inductive exception : Type :=
| StructNotFoundIpMmapError (structName : string)
| AttributeError (name : string)
| TypeError
| ValueError
| OverflowError
| OSError
| BufferError
| StoreCreationError
| FieldNotFoundError (segment : string)
| NotNavigableError (segment : string).

Inductive result (A : Type) : Type :=
| Ok (a : A)
| Raise (e : exception).
Arguments Ok {A} a.
Arguments Raise {A} e.

Definition result_bind {A B} (r : result A) (f : A -> result B) : result B :=
  match r with
  | Ok a => f a
  | Raise e => Raise e
  end.

Definition result_map {A B} (f : A -> B) (r : result A) : result B :=
  result_bind r (fun a => Ok (f a)).

(** ** ctypes layouts *)

Record field_of (T : Type) : Type := Field {
  f_name : string;
  f_offset : nat;
  f_type : T
}.
Arguments Field {T} _ _ _.
Arguments f_name {T} _.
Arguments f_offset {T} _.
Arguments f_type {T} _.

Set Warnings "-register-all".

(** A ctypes type: an integer type of [width] bytes ([c_int8] .. [c_uint64]),
    [c_double], a [Structure] subclass with its [__name__], its
    [ctypes.sizeof] and its fields, each at the byte offset ctypes gave it,
    or the fixed-size byte array [c_char * length]. *)
Inductive ctype : Type :=
| c_int (signed : bool) (width : nat)
| c_double
| Structure (name : string) (size : nat) (fields : list (field_of ctype))
| c_char_array (length : nat).

Definition sizeof (t : ctype) : nat :=
  match t with
  | c_int _ w => w
  | c_double => 8
  | Structure _ sz _ => sz
  | c_char_array n => n
  end.

Definition __name__ (t : ctype) : string :=
  match t with
  | c_int _ _ => "c_int"
  | c_double => "c_double"
  | Structure n _ _ => n
  | c_char_array n =>
      ("c_char_Array_" ++ NilEmpty.string_of_uint (Nat.to_uint n))%string
  end.

Definition _fields_ (t : ctype) : list (field_of ctype) :=
  match t with
  | Structure _ _ fs => fs
  | _ => []
  end.

Definition is_structure (t : ctype) : bool :=
  match t with
  | Structure _ _ _ => true
  | _ => false
  end.

(** The field descriptor a name is bound to on the class: ctypes binds the
    names in the order of [_fields_], a later field of the same name
    replacing an earlier one. *)
Definition field_lookup (k : string) (t : ctype) : option (field_of ctype) :=
  List.find (fun f => String.eqb k (f_name f)) (rev (_fields_ t)).

(** Class identity, as [isinstance] sees it. *)
Fixpoint ctype_eqb (a b : ctype) {struct a} : bool :=
  match a, b with
  | c_int s w, c_int s' w' => Bool.eqb s s' && Nat.eqb w w'
  | c_double, c_double => true
  | Structure n sz fs, Structure n' sz' fs' =>
      String.eqb n n' && Nat.eqb sz sz' &&
      (fix fields_eqb (l l' : list (field_of ctype)) {struct l} : bool :=
         match l, l' with
         | [], [] => true
         | f :: r, f' :: r' =>
             String.eqb (f_name f) (f_name f') &&
             Nat.eqb (f_offset f) (f_offset f') &&
             ctype_eqb (f_type f) (f_type f') &&
             fields_eqb r r'
         | _, _ => false
         end) fs fs'
  | c_char_array n, c_char_array n' => Nat.eqb n n'
  | _, _ => false
  end.

(** Every field lies inside its structure, at every depth. *)
Fixpoint wf_ctype (t : ctype) : bool :=
  match t with
  | c_int _ w => Nat.ltb 0 w
  | c_double => true
  | Structure _ sz fs =>
      forallb (fun f => Nat.leb (f_offset f + sizeof (f_type f)) sz
                        && wf_ctype (f_type f)) fs
  | c_char_array _ => true
  end.

(** ** Python values *)

(** The Python objects that flow through the accessors: [None], an [int], a
    [float] (by its IEEE-754 binary64 bit pattern), a ctypes structure
    instance whose class is [t], with the bytes of its own buffer, any other
    object (a tuple, a [bool], an object with [__index__] or [__float__], a
    method, ...), and a [bytes]. *)
Inductive pyvalue : Type :=
| PyNone
| PyInt (z : Z)
| PyFloat (bits : Z)
| PyStruct (t : ctype) (data : list byte)
| PyObject (repr : string)
| PyBytes (content : list byte).

(** What is outside the source file: the interpreter's generic attribute
    protocol for names that are not ctypes fields, what a ctypes field
    setter makes of an object that is none of [None], [int], [float],
    [bytes] or a structure instance, which structure classes derive from
    which ([issubclass sub base]), the header type of [base_struct], and the
    directory helpers of [mmap_manager] with pathlib's composition of a
    directory, a file name and a suffix. *)
Record platform : Type := Platform {
  object_getattr : pyvalue -> string -> result pyvalue;
  object_setattr : pyvalue -> string -> pyvalue -> result unit;
  object_setfunc : ctype -> pyvalue -> result (list byte);
  issubclass : ctype -> ctype -> bool;
  MmapStructureHeader : ctype;
  DEFAULT_MMAP_FILE_DIR : string;
  DEFAULT_FASTENERS_FILE_DIR : string;
  _getUseFDir : string -> option string -> string;
  path_resolve : string -> string -> string -> string
}.

(** ** Bytes *)

Definition slice (off n : nat) (buf : list byte) : list byte :=
  take n (drop off buf).

(** Overwrite [buf] from offset [off] on with [bs]. *)
Definition poke (off : nat) (bs buf : list byte) : list byte :=
  take off buf ++ bs ++ drop (off + length bs) buf.

Definition signed_of (width : nat) (z : Z) : Z :=
  if (z <? 2 ^ (8 * Z.of_nat width - 1))%Z then z
  else (z - 2 ^ (8 * Z.of_nat width))%Z.

(** The bit pattern of a binary64 number. *)
Definition binary64_bits (f : spec_float) : Z :=
  match f with
  | S754_zero s => if s then 2 ^ 63 else 0
  | S754_infinity s => (if s then 2 ^ 63 else 0) + 0x7FF * 2 ^ 52
  | S754_nan => 0x7FF8 * 2 ^ 48
  | S754_finite s m e =>
      (if s then 2 ^ 63 else 0) +
      (if Z.pos m <? 2 ^ 52 then Z.pos m
       else (e + 1075) * 2 ^ 52 + (Z.pos m - 2 ^ 52))
  end%Z.

(** An [int] given where a C double is wanted: rounded to the nearest
    double, ties to even; [OverflowError] beyond the largest one. *)
Definition float_of_int (z : Z) : result Z :=
  match binary_normalize 53 1024 z 0 false with
  | S754_infinity _ => Raise OverflowError
  | f => Ok (binary64_bits f)
  end.

(** The bytes before the first NUL. *)
Fixpoint until_nul (bs : list byte) : list byte :=
  match bs with
  | [] => []
  | b :: rest => if Byte.eqb b Byte.x00 then [] else b :: until_nul rest
  end.

(** ctypes getfunc: the Python value of a field of type [t] stored as [bs]
    (native byte order, little-endian).  A byte array in a structure reads
    as the [bytes] before its first NUL. *)
Definition to_python (t : ctype) (bs : list byte) : pyvalue :=
  match t with
  | c_int sg w => PyInt (if sg then signed_of w (le_combine bs) else le_combine bs)
  | c_double => PyFloat (le_combine bs)
  | Structure _ _ _ => PyStruct t bs
  | c_char_array _ => PyBytes (until_nul bs)
  end.

(** ctypes setfunc: the bytes stored, from the start of the field, for the
    Python value [v] in a field of type [t].  Integers wrap without a range
    check; a structure field takes an instance of its class or of a class
    derived from it, of which it copies as many bytes as the field has; a
    byte array takes a [bytes], of which it stores what comes before the
    first NUL and, where there is room, a NUL after it; what any other
    object gives (a tuple for a structure field, a [bool] or an object with
    [__index__] for an integer, an object with [__float__] for a double) is
    the interpreter's affair, and never goes beyond the field. *)
Definition from_python (P : platform) (t : ctype) (v : pyvalue)
  : result (list byte) :=
  match t, v with
  | c_int _ w, PyInt z => Ok (le_split w z)
  | c_double, PyFloat b => Ok (le_split 8 b)
  | c_double, PyInt z => result_map (le_split 8) (float_of_int z)
  | Structure _ _ _, PyStruct t' bs =>
      if ctype_eqb t t' || issubclass P t' t then Ok (take (sizeof t) bs)
      else Raise TypeError
  | c_char_array n, PyBytes bs =>
      let text := until_nul bs in
      if Nat.ltb (length text) n then Ok (text ++ [Byte.x00])
      else if Nat.eqb (length text) n then Ok text
      else Raise ValueError
  | _, PyObject _ => result_map (take (sizeof t)) (object_setfunc P t v)
  | _, _ => Raise TypeError
  end.

Section Platform.
Variable P : platform.

(** [getattr(val, k)] on an object that owns its bytes: what
    [from_buffer_copy] returns, and the fields read from it. *)
Definition getattr (val : pyvalue) (k : string) : result pyvalue :=
  match val with
  | PyStruct t bs =>
      match field_lookup k t with
      | Some f => Ok (to_python (f_type f) (slice (f_offset f) (sizeof (f_type f)) bs))
      | None => object_getattr P val k
      end
  | _ => object_getattr P val k
  end.

(** [for k in keys: val = getattr(val, k)] *)
Fixpoint getattr_loop (val : pyvalue) (keys : list string) : result pyvalue :=
  match keys with
  | [] => Ok val
  | k :: rest => result_bind (getattr val k) (fun v => getattr_loop v rest)
  end.

(** An object reached from what [from_buffer] returns: a structure laid over
    the mapping itself at byte offset [off], or a Python value read out of
    it. *)
Inductive pyobject : Type :=
| View (t : ctype) (off : nat)
| Value (v : pyvalue).

(** [getattr(attr, k)] with the mapping's bytes [buf] under the views: a
    structure field is a view of the same bytes, any other field is read. *)
Definition getattr_view (buf : list byte) (attr : pyobject) (k : string)
  : result pyobject :=
  match attr with
  | View t off =>
      match field_lookup k t with
      | Some f =>
          if is_structure (f_type f) then Ok (View (f_type f) (off + f_offset f))
          else Ok (Value (to_python (f_type f)
                            (slice (off + f_offset f) (sizeof (f_type f)) buf)))
      | None =>
          result_map Value (object_getattr P (PyStruct t (slice off (sizeof t) buf)) k)
      end
  | Value v => result_map Value (getattr v k)
  end.

Fixpoint getattr_view_loop (buf : list byte) (attr : pyobject) (keys : list string)
  : result pyobject :=
  match keys with
  | [] => Ok attr
  | k :: rest =>
      result_bind (getattr_view buf attr k) (fun a => getattr_view_loop buf a rest)
  end.

(** [setattr(attr, k, value)]: the store it makes into the mapping, as the
    offset and the bytes, if any.  A field of a view is stored in place; any
    other name goes through the generic protocol, which binds it on the
    temporary Python object or fails, and never reaches the mapping. *)
Definition setattr_view (buf : list byte) (attr : pyobject) (k : string)
    (value : pyvalue) : result (option (nat * list byte)) :=
  match attr with
  | View t off =>
      match field_lookup k t with
      | Some f =>
          result_map (fun bs => Some (off + f_offset f, bs))
                     (from_python P (f_type f) value)
      | None =>
          result_map (fun _ => None)
            (object_setattr P (PyStruct t (slice off (sizeof t) buf)) k value)
      end
  | Value v => result_map (fun _ => None) (object_setattr P v k value)
  end.

End Platform.

(** Calling a structure class with positional arguments: a zeroed instance
    whose first fields, in the order of [_fields_], are set from the
    arguments; more arguments than fields is a [TypeError]. *)
Fixpoint init_fields (P : platform) (buf : list byte)
    (fs : list (field_of ctype)) (args : list pyvalue) : result (list byte) :=
  match args, fs with
  | [], _ => Ok buf
  | _ :: _, [] => Raise TypeError
  | a :: args', f :: fs' =>
      result_bind (from_python P (f_type f) a)
        (fun bs => init_fields P (poke (f_offset f) bs buf) fs' args')
  end.

Definition new_struct (P : platform) (t : ctype) (args : list pyvalue)
  : result pyvalue :=
  result_map (PyStruct t)
    (init_fields P (replicate (sizeof t) Byte.x00) (_fields_ t) args).

(** [key.split('.')] *)
Fixpoint split_dot (key : string) : list string :=
  match key with
  | EmptyString => [EmptyString]
  | String c rest =>
      if Ascii.eqb c "."%char then EmptyString :: split_dot rest
      else match split_dot rest with
           | [] => [String c EmptyString]
           | h :: t => String c h :: t
           end
  end.

(** ** The world and the accessor object *)

(** What an operation does to the outside, in order.  [LockAcquire] and
    [LockRelease] are the two operations of the advisory file lock. *)
Inductive event : Type :=
| Seek (pos : nat)
| FromBufferCopy (file : string)
| FromBuffer (file : string)
| Store (file : string) (off len : nat)
| OpenWrite (file : string)
| LockAcquire (lockfile : string)
| LockRelease (lockfile : string).

(** The files by path, the paths that cannot be opened for writing, the
    reading of the clock, the subclasses of [BaseMmapStructure] in the order
    of their definition, and the events so far (latest last). *)
Record world : Type := World {
  files : gmap string (list byte);
  denied : gset string;
  clock : Z;
  subclasses : list ctype;
  trace : list event
}.

(** An open [mmap.mmap]: it shares the bytes of the file it maps and has a
    position of its own. *)
Record mmap_object : Type := Mmap {
  mm_file : string;
  mm_pos : nat
}.

Record accessor : Type := Accessor {
  structType : ctype;
  mmapFilePath : string;
  fastenerFilePath : string;
  editable : bool;
  mm : option mmap_object
}.

Record state : Type := State {
  self : accessor;
  env : world
}.

Definition set_files (fs : gmap string (list byte)) (w : world) : world :=
  World fs (denied w) (clock w) (subclasses w) (trace w).

Definition log (e : event) (w : world) : world :=
  World (files w) (denied w) (clock w) (subclasses w) (trace w ++ [e]).

Definition set_editable (b : bool) (a : accessor) : accessor :=
  Accessor (structType a) (mmapFilePath a) (fastenerFilePath a) b (mm a).

Definition set_mm (m : option mmap_object) (a : accessor) : accessor :=
  Accessor (structType a) (mmapFilePath a) (fastenerFilePath a) (editable a) m.

(** The bytes a mapping shows: those of its file, now. *)
Definition mapped (w : world) (m : mmap_object) : list byte :=
  default [] (files w !! mm_file m).

(** ** Methods as state transformers with exceptions *)

Definition M (A : Type) : Type := state -> result A * state.

Definition ret {A} (a : A) : M A := fun s => (Ok a, s).
Definition raise {A} (e : exception) : M A := fun s => (Raise e, s).
Definition bind {A B} (m : M A) (f : A -> M B) : M B :=
  fun s => match m s with
           | (Ok a, s') => f a s'
           | (Raise e, s') => (Raise e, s')
           end.
Definition lift {A} (r : result A) : M A := fun s => (r, s).

Declare Scope py_scope.
Delimit Scope py_scope with py.
Notation "x <- m ;; k" := (bind m (fun x => k))
  (at level 100, m at next level, right associativity) : py_scope.
Notation "m ;;; k" := (bind m (fun _ => k))
  (at level 100, right associativity) : py_scope.
Local Open Scope py_scope.

(** [self.mm.seek(pos)]; on [None] the attribute lookup fails. *)
Definition mm_seek (pos : nat) : M unit :=
  fun s => match mm (self s) with
           | Some m =>
               (Ok tt, State (set_mm (Some (Mmap (mm_file m) pos)) (self s))
                             (log (Seek pos) (env s)))
           | None => (Raise (AttributeError "seek"), s)
           end.

(** [self.structType.from_buffer_copy(mm)]: the first [sizeof] bytes of the
    mapping, copied; [ValueError] when the mapping is shorter. *)
Definition from_buffer_copy (source : option mmap_object) : M pyvalue :=
  fun s =>
    match source with
    | None => (Raise TypeError, s)
    | Some m =>
        let t := structType (self s) in
        let buf := mapped (env s) m in
        if Nat.ltb (length buf) (sizeof t) then (Raise ValueError, s)
        else (Ok (PyStruct t (take (sizeof t) buf)),
              State (self s) (log (FromBufferCopy (mm_file m)) (env s)))
    end.

(** [self.structType.from_buffer(mm)]: the structure laid over the mapping
    itself. *)
Definition from_buffer (m : mmap_object) : M pyobject :=
  fun s =>
    let t := structType (self s) in
    let buf := mapped (env s) m in
    if Nat.ltb (length buf) (sizeof t) then (Raise ValueError, s)
    else (Ok (View t 0),
          State (self s) (log (FromBuffer (mm_file m)) (env s))).

Definition self_mm : M (option mmap_object) :=
  fun s => (Ok (mm (self s)), s).

Definition self_structType : M ctype :=
  fun s => (Ok (structType (self s)), s).

Definition self_mmapFilePath : M string :=
  fun s => (Ok (mmapFilePath (self s)), s).

(** The bytes under the views. *)
Definition peek_mapping (m : mmap_object) : M (list byte) :=
  fun s => (Ok (mapped (env s) m), s).

(** A store through a view: the bytes [bs] land in the mapped file at
    offset [off]. *)
Definition store_mapping (m : mmap_object) (st : option (nat * list byte)) : M unit :=
  fun s =>
    match st with
    | Some (off, bs) =>
        let w := env s in
        (Ok tt,
         State (self s)
           (log (Store (mm_file m) off (length bs))
              (set_files (<[mm_file m := poke off bs (mapped w m)]> (files w)) w)))
    | None => (Ok tt, s)
    end.

(** [time.time()] *)
Definition time_time : M pyvalue :=
  fun s => (Ok (PyFloat (clock (env s))), s).

(** ** The classes *)

Section Classes.
Variable P : platform.

(** *** BaseStructMmapManager *)

(** Modelled from the spec: [AbstractMmapManger.__init__] of
    [mmap_manager.py], which is not part of the source at hand.
    Construction does not open the mapping: the object starts with no mapped
    region, and the world is as it was. *)
Definition AbstractMmapManger_init (mmapDir fastenerDir : option string)
  : option mmap_object := None.

Definition _searchStructType (w : world) (structName : string) : result ctype :=
  match List.find (fun st => String.eqb structName (__name__ st)) (subclasses w) with
  | Some st => Ok st
  | None => Raise (StructNotFoundIpMmapError structName)
  end.

(** [__init__]; [editable] is for the subclass to set. *)
Definition BaseStructMmapManager_init (structName tag : string)
    (mmapDir fastenerDir : option string) (w : world) : result accessor :=
  let mm0 := AbstractMmapManger_init mmapDir fastenerDir in
  result_bind (_searchStructType w structName) (fun st =>
  let fileName := (__name__ st ++ "_" ++ tag)%string in
  Ok (Accessor st
        (path_resolve P (_getUseFDir P (DEFAULT_MMAP_FILE_DIR P) mmapDir)
                      fileName ".mmap")
        (path_resolve P (_getUseFDir P (DEFAULT_FASTENERS_FILE_DIR P) fastenerDir)
                      fileName ".lockfile")
        false mm0)).

Definition _generateStruct : M pyvalue :=
  t <- self_structType;;
  now <- time_time;;
  header <- lift (new_struct P (MmapStructureHeader P) [PyInt 0x1128; now]);;
  lift (new_struct P t [header]).

(** [open(path, "wb")]: fails on a path that cannot be opened for writing,
    else leaves the file empty. *)
Definition open_wb (path : string) : M unit :=
  fun s =>
    let w := env s in
    if decide (path ∈ denied w) then (Raise OSError, s)
    else (Ok tt, State (self s)
                   (log (OpenWrite path) (set_files (<[path := []]> (files w)) w))).

(** [fs.write(data)] of an object with the buffer protocol. *)
Definition fs_write (path : string) (data : pyvalue) : M unit :=
  fun s =>
    let w := env s in
    match data with
    | PyStruct _ bs =>
        (Ok tt, State (self s)
                  (set_files (<[path := default [] (files w !! path) ++ bs]> (files w)) w))
    | _ => (Raise TypeError, s)
    end.

(** [try: body except Exception as e: pass] *)
Definition try_except_pass (body : M unit) : M unit :=
  fun s => match body s with
           | (Ok _, s') => (Ok tt, s')
           | (Raise _, s') => (Ok tt, s')
           end.

Definition _createNewMmapFile (dataStruct : pyvalue) : M unit :=
  try_except_pass
    (path <- self_mmapFilePath;;
     open_wb path;;;
     fs_write path dataStruct).

Definition getLastUpdate : M pyvalue :=
  m <- self_mm;;
  match m with
  | Some _ =>
      mm_seek 0;;;
      mmData <- from_buffer_copy m;;
      header <- lift (getattr P mmData "header");;
      lift (getattr P header "time_stamp")
  | None => ret (PyInt (-1))
  end.

(** *** DataStructMmapReader *)

Definition DataStructMmapReader_init (structName tag : string)
    (mmapDir fastenerDir : option string) (w : world) : result accessor :=
  result_map (set_editable false)
    (BaseStructMmapManager_init structName tag mmapDir fastenerDir w).

Definition readData (key : string) : M pyvalue :=
  mm_seek 0;;;
  m <- self_mm;;
  mmData <- from_buffer_copy m;;
  lift (getattr_loop P mmData (split_dot key)).

Definition readMappedBuffer : M pyvalue :=
  m <- self_mm;;
  match m with
  | Some _ =>
      mm_seek 0;;;
      from_buffer_copy m
  | None => ret PyNone
  end.

(** *** DataStructMmapEditor *)

Definition DataStructMmapEditor_init (structName tag : string)
    (mmapDir fastenerDir : option string) (w : world) : result accessor :=
  result_map (set_editable true)
    (DataStructMmapReader_init structName tag mmapDir fastenerDir w).

Definition updateLastUpdate : M pyvalue :=
  m <- self_mm;;
  match m with
  | Some mo =>
      mm_seek 0;;;
      mmData <- from_buffer mo;;
      now <- time_time;;
      buf <- peek_mapping mo;;
      header <- lift (getattr_view P buf mmData "header");;
      st <- lift (setattr_view P buf header "time_stamp" now);;
      store_mapping mo st;;;
      ret PyNone
  | None => ret PyNone
  end.

Definition writeData (key : string) (value : pyvalue) : M pyvalue :=
  m <- self_mm;;
  match m with
  | Some mo =>
      mm_seek 0;;;
      mmData <- from_buffer mo;;
      let keyList := split_dot key in
      buf <- peek_mapping mo;;
      attr <- lift (getattr_view_loop P buf mmData (removelast keyList));;
      st <- lift (setattr_view P buf attr (List.last keyList EmptyString) value);;
      store_mapping mo st;;;
      ret PyNone
  | None => ret PyNone
  end.

Definition referMappedBuffer : M (option pyobject) :=
  m <- self_mm;;
  match m with
  | Some mo =>
      mm_seek 0;;;
      mmData <- from_buffer mo;;
      ret (Some mmData)
  | None => ret None
  end.

(** [ctypes.memset(ctypes.byref(mmData), 0, ctypes.sizeof(mmData))] *)
Definition memset_zero (mo : mmap_object) (mmData : pyobject) : M unit :=
  match mmData with
  | View t off => store_mapping mo (Some (off, replicate (sizeof t) Byte.x00))
  | Value _ => raise TypeError
  end.

Definition clearMappedBuffer : M pyvalue :=
  m <- self_mm;;
  match m with
  | Some mo =>
      mm_seek 0;;;
      mmData <- from_buffer mo;;
      memset_zero mo mmData;;;
      ret PyNone
  | None => ret PyNone
  end.

(** *** DataStructMmapManager *)

Definition path_exists (w : world) (path : string) : bool :=
  bool_decide (path ∈ dom (files w)).

Definition DataStructMmapManager_init (structName tag : string)
    (mmapDir fastenerDir : option string) (create force : bool) (w : world)
  : result accessor * world :=
  match DataStructMmapEditor_init structName tag mmapDir fastenerDir w with
  | Raise e => (Raise e, w)
  | Ok a0 =>
      let a := set_editable true a0 in
      if create then
        if force || negb (path_exists w (mmapFilePath a)) then
          match (dataStruct <- _generateStruct;; _createNewMmapFile dataStruct)
                  (State a w) with
          | (Ok _, s') => (Ok (self s'), env s')
          | (Raise e, s') => (Raise e, env s')
          end
        else (Ok a, w)
      else (Ok a, w)
  end.

End Classes.

(** *** DataStructMmapManager: the master mapping *)

(** What [open(path, 'r+b')] returns: a file object on [path], open until
    [close()] is called on it. *)
Record file_object : Type := FileObject {
  fo_path : string;
  fo_closed : bool
}.

(** What [mmap.mmap(fileno, 0)] returns, as far as [closeMemory] looks at
    it: the file it maps and its [closed] attribute. *)
Record master_mmap : Type := MasterMmap {
  master_file : string;
  master_closed : bool
}.

(** The two attributes [openMemory] and [closeMemory] work on. *)
Record handles : Type := Handles {
  fs_master : option file_object;
  mm_master : option master_mmap
}.

(** [open(path, 'r+b')]: the file must exist and be writable; it is neither
    created nor truncated. *)
Definition open_rb_plus (w : world) (path : string) : result file_object :=
  if bool_decide (path ∈ dom (files w)) then
    if decide (path ∈ denied w) then Raise OSError
    else Ok (FileObject path false)
  else Raise OSError.

(** [mmap.mmap(fs.fileno(), 0, access=mmap.ACCESS_DEFAULT)]: the whole file
    is mapped; an empty file cannot be. *)
Definition mmap_whole (w : world) (fs : file_object) : result master_mmap :=
  match default [] (files w !! fo_path fs) with
  | [] => Raise ValueError
  | _ :: _ => Ok (MasterMmap (fo_path fs) false)
  end.

(** [openMemory]: the first assignment is made before the second call can
    fail. *)
Definition openMemory (a : accessor) (w : world) (h : handles)
  : result unit * handles :=
  match open_rb_plus w (mmapFilePath a) with
  | Raise e => (Raise e, h)
  | Ok fs =>
      let h1 := Handles (Some fs) (mm_master h) in
      match mmap_whole w fs with
      | Raise e => (Raise e, h1)
      | Ok m => (Ok tt, Handles (Some fs) (Some m))
      end
  end.

(** The two attributes as [closeMemory] finds them on the object: each is
    not there at all ([None]: no [openMemory] and no constructor assigned
    it), or holds [None] or an object. *)
Record attributes : Type := Attributes {
  attr_fs_master : option (option file_object);
  attr_mm_master : option (option master_mmap)
}.

(** The attributes once both are assigned. *)
Definition assigned (h : handles) : attributes :=
  Attributes (Some (fs_master h)) (Some (mm_master h)).

(** [closeMemory].  Reading an attribute that is not there fails;
    [mm_master.close()] fails with [BufferError] while a ctypes object laid
    over the master mapping is alive ([view_alive]), and then neither the
    assignment of [None] nor [fs_master.close()] is reached. *)
Definition closeMemory (view_alive : bool) (o : attributes)
  : result unit * attributes :=
  match attr_mm_master o with
  | None => (Raise (AttributeError "mm_master"), o)
  | Some held =>
      let closing : result (option master_mmap) :=
        match held with
        | Some m =>
            if negb (master_closed m) then
              if view_alive then Raise BufferError else Ok None
            else Ok (Some m)
        | None => Ok None
        end in
      match closing with
      | Raise e => (Raise e, o)
      | Ok mm' =>
          match attr_fs_master o with
          | None =>
              (Raise (AttributeError "fs_master"),
               Attributes None (Some mm'))
          | Some None => (Ok tt, Attributes (Some None) (Some mm'))
          | Some (Some f) =>
              (Ok tt,
               Attributes (Some (Some (FileObject (fo_path f) true))) (Some mm'))
          end
      end
  end.

(** ** A concrete store to run the model on *)

Module Telemetry.

(** Modelled from the spec: the header type of [base_struct.py], which is not
    part of the source at hand: a magic constant and a 64-bit float
    [time_stamp], in this order. *)
Definition Header : ctype :=
  Structure "MmapStructureHeader" 16
    [Field "magic" 0 (c_int false 4); Field "time_stamp" 8 c_double].

Definition Telemetry : ctype :=
  Structure "Telemetry" 32
    [Field "header" 0 Header; Field "speed" 16 c_double;
     Field "count" 24 (c_int true 4)].


(** The part of a file name before its last dot, when it has a dot. *)
Fixpoint before_last_dot (name : string) : option string :=
  match name with
  | EmptyString => None
  | String c rest =>
      match before_last_dot rest with
      | Some stem => Some (String c stem)
      | None => if Ascii.eqb c "."%char then Some EmptyString else None
      end
  end.

(** pathlib's [with_suffix]: the extension after the last dot of the name
    is replaced, when that dot is neither the first nor the last character
    of the name; a name without such an extension gets the suffix
    appended. *)
Definition with_suffix (name sfx : string) : string :=
  match before_last_dot name with
  | Some stem =>
      if String.eqb stem EmptyString
         || Nat.eqb (S (String.length stem)) (String.length name)
      then (name ++ sfx)%string
      else (stem ++ sfx)%string
  | None => (name ++ sfx)%string
  end.

(** What [__class__] of an object prints as. *)
Definition class_repr (v : pyvalue) : string :=
  match v with
  | PyNone => "<class 'NoneType'>"
  | PyInt _ => "<class 'int'>"
  | PyFloat _ => "<class 'float'>"
  | PyBytes _ => "<class 'bytes'>"
  | PyStruct t _ => ("<class '" ++ __name__ t ++ "'>")%string
  | PyObject r => ("type(" ++ r ++ ")")%string
  end.

(** A fragment of the interpreter, enough for the names and objects used
    below.  Of the attributes that are not ctypes fields it knows
    [__class__] of every object and [real], [imag], [numerator] and
    [denominator] of the numbers, and takes any other name for no
    attribute; binding a name that is not a field works on a structure
    instance, which has a [__dict__], except for [__class__], and on
    nothing else; the only other objects it knows are [True] and [False],
    which the field setters take as numbers; no structure class derives
    from another.  Paths are composed below absolute directories without
    symbolic links. *)
Definition cpython : platform :=
  {| object_getattr := fun v k =>
       if String.eqb k "__class__" then Ok (PyObject (class_repr v)) else
       match v with
       | PyInt z =>
           if String.eqb k "real" || String.eqb k "numerator" then Ok v
           else if String.eqb k "imag" then Ok (PyInt 0)
           else if String.eqb k "denominator" then Ok (PyInt 1)
           else Raise (AttributeError k)
       | PyFloat b =>
           if String.eqb k "real" then Ok v
           else if String.eqb k "imag" then Ok (PyFloat 0)
           else Raise (AttributeError k)
       | _ => Raise (AttributeError k)
       end;
     object_setattr := fun v k _ =>
       match v with
       | PyStruct _ _ =>
           if String.eqb k "__class__" then Raise TypeError else Ok tt
       | _ => Raise (AttributeError k)
       end;
     object_setfunc := fun t v =>
       match t, v with
       | c_int _ w, PyObject "True" => Ok (le_split w 1)
       | c_int _ w, PyObject "False" => Ok (le_split w 0)
       | c_double, PyObject "True" => Ok (le_split 8 0x3FF0000000000000)
       | c_double, PyObject "False" => Ok (le_split 8 0)
       | _, _ => Raise TypeError
       end;
     issubclass := fun _ _ => false;
     MmapStructureHeader := Header;
     DEFAULT_MMAP_FILE_DIR := "/dev/shm/ipmmap";
     DEFAULT_FASTENERS_FILE_DIR := "/tmp/ipmmap";
     _getUseFDir := fun d o => default d o;
     path_resolve := fun d f sfx => (d ++ "/" ++ with_suffix f sfx)%string |}.

Definition path : string := "/dev/shm/ipmmap/Telemetry_car1.mmap".

(** 42.5 and 1.0 as doubles. *)
Definition f42_5 : Z := 0x4045400000000000.
Definition t0 : Z := 0x3FF0000000000000.

Definition empty_world : world :=
  World ∅ ∅ t0 [Telemetry] [].

Definition created : result accessor * world :=
  DataStructMmapManager_init cpython "Telemetry" "car1" None None true false
    empty_world.

End Telemetry.

(** ** What the claims are stated with *)

(** The field a list of path segments resolves to in a layout: its byte
    offset from [off] and its type. *)
Fixpoint resolve (t : ctype) (off : nat) (keys : list string)
  : option (nat * ctype) :=
  match keys with
  | [] => Some (off, t)
  | k :: rest =>
      match field_lookup k t with
      | Some f => resolve (f_type f) (off + f_offset f) rest
      | None => None
      end
  end.

(** The values a field of type [t] can hold. *)
Definition representable (t : ctype) (v : pyvalue) : Prop :=
  match t, v with
  | c_int false w, PyInt z => (0 <= z < 2 ^ (8 * Z.of_nat w))%Z
  | c_int true w, PyInt z =>
      (- 2 ^ (8 * Z.of_nat w - 1) <= z < 2 ^ (8 * Z.of_nat w - 1))%Z
  | c_double, PyFloat b => (0 <= b < 2 ^ 64)%Z
  | Structure _ _ _, PyStruct t' bs => t' = t /\ length bs = sizeof t
  | c_char_array n, PyBytes bs => length bs <= n /\ Byte.x00 ∉ bs
  | _, _ => False
  end.




(** The events an operation adds to the trace. *)
Definition events_of {A} (op : M A) (s : state) : list event :=
  drop (length (trace (env s))) (trace (env (snd (op s)))).

Definition is_lock_event (e : event) : bool :=
  match e with
  | LockAcquire _ | LockRelease _ => true
  | _ => false
  end.

Definition touches_mapping (e : event) : bool :=
  match e with
  | Seek _ | FromBufferCopy _ | FromBuffer _ | Store _ _ _ => true
  | _ => false
  end.

(** A run of events keeps the lock discipline for [lockfile]: the mapping
    is touched only while the lock is held, and the lock is not held at the
    end. *)
Fixpoint lock_disciplined (lockfile : string) (held : bool) (tr : list event)
  : bool :=
  match tr with
  | [] => negb held
  | LockAcquire l :: rest =>
      lock_disciplined lockfile (held || String.eqb l lockfile) rest
  | LockRelease l :: rest =>
      lock_disciplined lockfile (held && negb (String.eqb l lockfile)) rest
  | e :: rest =>
      (negb (touches_mapping e) || held) && lock_disciplined lockfile held rest
  end.

(** The same object with its mapping's position moved. *)
Definition with_pos (pos : nat) (s : state) : state :=
  match mm (self s) with
  | Some m => State (set_mm (Some (Mmap (mm_file m) pos)) (self s)) (env s)
  | None => s
  end.

(** An operation seeks to 0 first, and nothing it does depends on where the
    position was. *)
Definition reseeks {A} (op : M A) : Prop :=
  forall s m, mm (self s) = Some m ->
    (exists rest, events_of op s = Seek 0 :: rest) /\
    (forall pos, op (with_pos pos s) = op s).

(** The state a successful seek-and-map leaves. *)
Definition after_map (e : event) (s : state) (m : mmap_object) : state :=
  State (set_mm (Some (Mmap (mm_file m) 0)) (self s))
        (log e (log (Seek 0) (env s))).

(** The state a store through the mapping leaves. *)
Definition after_store (s : state) (m : mmap_object) (off : nat) (bs : list byte)
  : state :=
  State (set_mm (Some (Mmap (mm_file m) 0)) (self s))
        (log (Store (mm_file m) off (length bs))
           (set_files (<[mm_file m := poke off bs (mapped (env s) m)]> (files (env s)))
              (log (FromBuffer (mm_file m)) (log (Seek 0) (env s))))).

(** An operation only adds events, none of them on the lock. *)
Definition lock_free {A} (op : M A) : Prop :=
  forall s, exists evs,
    trace (env (snd (op s))) = trace (env s) ++ evs /\
    forallb (fun e => negb (is_lock_event e)) evs = true.

Definition no_lock_event (evs : list event) : bool :=
  forallb (fun e => negb (is_lock_event e)) evs.

(** ** What the further properties are stated with *)

(** What a field of type [t] reads as when all its bytes are zero. *)
Definition zero_value (t : ctype) : pyvalue :=
  match t with
  | c_int _ _ => PyInt 0
  | c_double => PyFloat 0
  | Structure _ _ _ => PyStruct t (replicate (sizeof t) Byte.x00)
  | c_char_array _ => PyBytes []
  end.

(** An operation leaves every file as it is, however it ends. *)
Definition read_only {A} (op : M A) : Prop :=
  forall s, files (env (snd (op s))) = files (env s).

(** The record [_generateStruct] builds for a structure of [sz] bytes whose
    header of [hsz] bytes lies at offset [ho], with the magic number of
    width [w] at [mo] and the time stamp at [to] inside the header. *)
Definition default_record (sz ho hsz mo w to : nat) (now : Z) : list byte :=
  poke ho
    (poke to (le_split 8 now)
       (poke mo (le_split w 0x1128) (replicate hsz Byte.x00)))
    (replicate sz Byte.x00).

(** A view lies inside the first [n] bytes and has a well-formed type. *)
Definition view_ok (n : nat) (a : pyobject) : Prop :=
  match a with
  | View t off => wf_ctype t = true /\ off + sizeof t <= n
  | Value _ => True
  end.

(** The values a field of type [t] refuses whatever the interpreter: a
    number for a structure or a byte array, a [float] for an integer, [None]
    for every field, a [bytes] for every field that is not a byte array, a
    structure instance for a number or a byte array. *)
Definition refused (t : ctype) (v : pyvalue) : bool :=
  match t, v with
  | c_int _ _, (PyFloat _ | PyNone | PyStruct _ _ | PyBytes _) => true
  | c_double, (PyNone | PyStruct _ _ | PyBytes _) => true
  | Structure _ _ _, (PyInt _ | PyFloat _ | PyNone | PyBytes _) => true
  | c_char_array _, (PyInt _ | PyFloat _ | PyNone | PyStruct _ _) => true
  | _, _ => false
  end.

(** ** The concrete store, stored and opened *)

Section OnTelemetry.
Import Telemetry.

Definition lockfile : string := "/tmp/ipmmap/Telemetry_car1.lockfile".

(** The record as the Manager writes it at time [t0]. *)
Definition record0 : list byte :=
  le_split 4 0x1128 ++ replicate 4 Byte.x00 ++ le_split 8 t0
  ++ replicate 16 Byte.x00.

Definition stored : world :=
  World {[ path := record0 ]} ∅ f42_5 [Telemetry] [].

Definition unwritable : world :=
  World ∅ {[ path ]} t0 [Telemetry] [].

Definition closed : accessor :=
  Accessor Telemetry path lockfile true None.

Definition s_closed : state := State closed stored.

Definition m7 : mmap_object := Mmap path 7.

Definition s_open : state := State (set_mm (Some m7) closed) stored.

End OnTelemetry.

Section OnTelemetryMore.
Import Telemetry.

(** The backing file cut to three bytes, and grown by four. *)
Definition truncated : world :=
  World {[ path := take 3 record0 ]} ∅ f42_5 [Telemetry] [].

Definition oversized : world :=
  World {[ path := record0 ++ replicate 4 Byte.xff ]} ∅ f42_5 [Telemetry] [].

Definition emptied : world :=
  World {[ path := [] ]} ∅ f42_5 [Telemetry] [].

Definition s_short : state := State (set_mm (Some m7) closed) truncated.

Definition s_long : state := State (set_mm (Some m7) closed) oversized.

(** A second struct of the same name, defined later. *)
Definition Telemetry2 : ctype :=
  Structure "Telemetry" 24 [Field "header" 0 Header; Field "speed" 16 c_double].

Definition shadowed : world :=
  World ∅ ∅ t0 [Header; Telemetry; Telemetry2] [].

Definition h0 : handles := Handles None None.






End OnTelemetryMore.

(** ** Bytes and layouts *)

Section Bytes.
Implicit Types (buf bs : list byte) (off n : nat).

Lemma length_slice off n buf :
  off + n <= length buf -> length (slice off n buf) = n.
Proof. intros H. unfold slice. rewrite length_take, length_drop. lia. Qed.

Ltac by_lookup :=
  unfold slice; apply list_eq; intros ?;
  repeat (rewrite ?lookup_take, ?lookup_drop; repeat case_decide);
  try lia; try done; try (f_equal; lia).

Lemma slice_slice off n off' n' buf :
  off' + n' <= n -> slice off' n' (slice off n buf) = slice (off + off') n' buf.
Proof. intros H. by_lookup. Qed.

Lemma slice_take off n k buf :
  off + n <= k -> slice off n (take k buf) = slice off n buf.
Proof. intros H. by_lookup. Qed.

Lemma length_poke off bs buf :
  off + length bs <= length buf -> length (poke off bs buf) = length buf.
Proof.
  intros H. unfold poke.
  rewrite !length_app, length_take, length_drop. lia.
Qed.

Lemma slice_poke off bs buf :
  off <= length buf -> slice off (length bs) (poke off bs buf) = bs.
Proof.
  intros H. unfold slice, poke.
  rewrite drop_app_length'; [|rewrite length_take; lia].
  by rewrite take_app_length.
Qed.

Lemma slice_poke_prefix off n bs buf :
  off + n <= length buf -> length bs <= n ->
  slice off n (poke off bs buf)
  = bs ++ slice (off + length bs) (n - length bs) buf.
Proof.
  intros H1 H2. unfold slice, poke.
  rewrite drop_app_length'; [|rewrite length_take; lia].
  by rewrite take_app_ge by lia.
Qed.


Lemma lookup_poke_outside off bs buf i :
  off + length bs <= length buf ->
  i < off \/ off + length bs <= i ->
  poke off bs buf !! i = buf !! i.
Proof.
  intros Hlen Hi. unfold poke. destruct Hi as [Hi|Hi].
  - rewrite lookup_app_l; [|rewrite length_take; lia].
    by rewrite lookup_take_lt.
  - rewrite lookup_app_r; [|rewrite length_take; lia].
    rewrite lookup_app_r; [|rewrite length_take; lia].
    rewrite lookup_drop, length_take. f_equal. lia.
Qed.

Lemma poke_all_zero n buf :
  length buf = n -> poke 0 (replicate n Byte.x00) buf = replicate n Byte.x00.
Proof.
  intros H. unfold poke. rewrite take_0, length_replicate. simpl.
  rewrite drop_ge by lia. by rewrite app_nil_r.
Qed.

End Bytes.

Section Layouts.

Lemma ctype_eqb_refl : forall t, ctype_eqb t t = true.
Proof.
  fix IH 1. intros [s w| |n sz fs|n]; simpl.
  - destruct s; simpl; apply Nat.eqb_refl.
  - reflexivity.
  - rewrite String.eqb_refl, Nat.eqb_refl. simpl.
    induction fs as [|[fn fo ft] r IHr]; [reflexivity|]. simpl.
    rewrite String.eqb_refl, Nat.eqb_refl, IH, IHr. reflexivity.
  - apply Nat.eqb_refl.
Qed.

Lemma field_lookup_In k t f :
  field_lookup k t = Some f -> In f (_fields_ t) /\ f_name f = k.
Proof.
  unfold field_lookup. intros H. apply find_some in H as [Hin Heq].
  apply in_rev in Hin. apply String.eqb_eq in Heq. auto.
Qed.

Lemma field_lookup_structure k t f :
  field_lookup k t = Some f -> is_structure t = true.
Proof.
  intros H. apply field_lookup_In in H as [Hin _].
  destruct t; simpl in *; tauto.
Qed.

(** A field that a well-formed layout binds lies inside the structure and is
    well-formed itself. *)
Lemma field_lookup_wf k t f :
  wf_ctype t = true -> field_lookup k t = Some f ->
  f_offset f + sizeof (f_type f) <= sizeof t /\ wf_ctype (f_type f) = true.
Proof.
  intros Hwf H. apply field_lookup_In in H as [Hin _].
  destruct t as [| |n sz fs|]; simpl in *; try tauto.
  rewrite forallb_forall in Hwf. specialize (Hwf f Hin).
  apply andb_prop in Hwf as [H1 H2]. apply Nat.leb_le in H1. auto.
Qed.

Lemma resolve_app t off ks ks' :
  resolve t off (ks ++ ks') =
  match resolve t off ks with
  | Some (o, t') => resolve t' o ks'
  | None => None
  end.
Proof.
  revert t off. induction ks as [|k ks IH]; intros t off; simpl; [done|].
  destruct (field_lookup k t); [apply IH | done].
Qed.

Lemma resolve_wf t off ks o T :
  wf_ctype t = true -> resolve t off ks = Some (o, T) ->
  wf_ctype T = true /\ off <= o /\ o + sizeof T <= off + sizeof t.
Proof.
  revert t off. induction ks as [|k ks IH]; intros t off Hwf H; simpl in H.
  - inversion H; subst. auto with lia.
  - destruct (field_lookup k t) as [f|] eqn:Hf; [|done].
    destruct (field_lookup_wf _ _ _ Hwf Hf) as [Hb Hwf'].
    destruct (IH _ _ Hwf' H) as (? & ? & ?). auto with lia.
Qed.

Lemma resolve_is_structure t off ks o T :
  resolve t off ks = Some (o, T) -> is_structure T = true ->
  is_structure t = true.
Proof.
  destruct ks as [|k ks]; simpl; intros H HT.
  - by inversion H; subst.
  - destruct (field_lookup k t) as [f|] eqn:Hf; [|done].
    by eapply field_lookup_structure.
Qed.

Lemma split_dot_nonempty key : split_dot key <> [].
Proof.
  induction key as [|c key IH]; simpl; [done|].
  destruct (Ascii.eqb c "."); [done|]. by destruct (split_dot key).
Qed.




Lemma signed_of_wrap w z :
  (- 2 ^ (8 * Z.of_nat w - 1) <= z < 2 ^ (8 * Z.of_nat w - 1))%Z ->
  signed_of w (z mod 2 ^ (Z.of_nat w * 8)) = z.
Proof.
  intros Hz. destruct w as [|w].
  { simpl in Hz. change (2 ^ (-1))%Z with 0%Z in Hz. lia. }
  assert (Hp : (2 ^ (8 * Z.of_nat (S w)) = 2 * 2 ^ (8 * Z.of_nat (S w) - 1))%Z).
  { rewrite <- Z.pow_succ_r by lia. f_equal. lia. }
  replace (Z.of_nat (S w) * 8)%Z with (8 * Z.of_nat (S w))%Z by lia.
  unfold signed_of. set (h := (2 ^ (8 * Z.of_nat (S w) - 1))%Z) in *.
  rewrite Hp. destruct (Z_lt_le_dec z 0) as [Hneg|Hpos].
  - rewrite <- (Z_mod_plus_full z 1 (2 * h)).
    rewrite Z.mod_small by lia.
    destruct (Z.ltb_spec (z + 1 * (2 * h)) h); lia.
  - rewrite Z.mod_small by lia.
    destruct (Z.ltb_spec z h); lia.
Qed.

Lemma until_nul_app_nul bs rest :
  Byte.x00 ∉ bs -> until_nul (bs ++ Byte.x00 :: rest) = bs.
Proof.
  induction bs as [|b bs IH]; intros Hno; [reflexivity|].
  cbn [app until_nul].
  destruct (Byte.eqb b Byte.x00) eqn:E.
  - apply Byte.byte_dec_bl in E. subst b. destruct Hno. by left.
  - f_equal. apply IH. intros Hin. apply Hno. by right.
Qed.

Lemma until_nul_no_nul bs : Byte.x00 ∉ bs -> until_nul bs = bs.
Proof.
  induction bs as [|b bs IH]; intros Hno; [reflexivity|].
  cbn [until_nul].
  destruct (Byte.eqb b Byte.x00) eqn:E.
  - apply Byte.byte_dec_bl in E. subst b. destruct Hno. by left.
  - f_equal. apply IH. intros Hin. apply Hno. by right.
Qed.

(** What a field can hold is stored from the start of the field, inside it,
    and read back as it was whatever the rest of the field held. *)
Lemma from_python_to_python P t v :
  representable t v ->
  exists bs, from_python P t v = Ok bs /\ length bs <= sizeof t /\
    forall rest, length rest = sizeof t - length bs ->
                 to_python t (bs ++ rest) = v.
Proof.
  destruct t as [[|] w| |n sz fs|n], v as [|z|b|t' bs'|r|bb];
    unfold representable, from_python, to_python, sizeof; try tauto.
  - intros Hz. eexists; split; [reflexivity|]. rewrite length_le_split.
    split; [done|]. intros rest Hr. destruct rest; [|simpl in Hr; lia].
    rewrite app_nil_r, le_combine_split. by rewrite signed_of_wrap.
  - intros Hz. eexists; split; [reflexivity|]. rewrite length_le_split.
    split; [done|]. intros rest Hr. destruct rest; [|simpl in Hr; lia].
    rewrite app_nil_r, le_combine_split. rewrite Z.mod_small; [done|].
    by replace (Z.of_nat w * 8)%Z with (8 * Z.of_nat w)%Z by lia.
  - intros Hb. eexists; split; [reflexivity|]. rewrite length_le_split.
    split; [done|]. intros rest Hr. destruct rest; [|simpl in Hr; lia].
    rewrite app_nil_r, le_combine_split. by rewrite Z.mod_small.
  - intros [-> Hlen]. rewrite ctype_eqb_refl. cbn [orb].
    eexists; split; [reflexivity|]. rewrite take_ge by lia.
    split; [lia|]. intros rest Hr. destruct rest; [|simpl in Hr; lia].
    by rewrite app_nil_r.
  - intros [Hlen Hno]. rewrite (until_nul_no_nul _ Hno).
    destruct (Nat.ltb_spec (length bb) n) as [Hlt|Hge].
    + eexists; split; [reflexivity|]. rewrite length_app. simpl.
      split; [lia|]. intros rest _. rewrite <- app_assoc. simpl.
      by rewrite until_nul_app_nul.
    + assert (length bb = n) as Heq by lia. rewrite <- Heq, Nat.eqb_refl.
      eexists; split; [reflexivity|]. split; [lia|].
      intros rest Hr. destruct rest; [|simpl in Hr; lia].
      by rewrite app_nil_r, until_nul_no_nul.
Qed.

End Layouts.

(** ** Walking a path *)

Section Walk.
Variable P : platform.

(** Reading along a path that resolves in the layout yields the field's
    bytes, decoded by the field's type. *)
Lemma getattr_loop_resolve buf ks : forall t off o T,
  wf_ctype t = true ->
  resolve t off ks = Some (o, T) ->
  getattr_loop P (to_python t (slice off (sizeof t) buf)) ks
  = Ok (to_python T (slice o (sizeof T) buf)).
Proof.
  induction ks as [|k ks IH]; intros t off o T Hwf H; simpl in H.
  - by inversion H; subst.
  - destruct (field_lookup k t) as [f|] eqn:Hf; [|done].
    destruct (field_lookup_wf _ _ _ Hwf Hf) as [Hb Hwf'].
    pose proof (field_lookup_structure _ _ _ Hf) as Hs.
    destruct t as [| |n sz fs|]; try discriminate.
    cbn [getattr_loop to_python getattr]. rewrite Hf. cbn [result_bind].
    rewrite slice_slice by exact Hb. by apply IH.
Qed.

(** Walking the views along a path that resolves to a structure ends on the
    view of that structure. *)
Lemma getattr_view_loop_resolve buf ks : forall t off o T,
  resolve t off ks = Some (o, T) ->
  is_structure T = true ->
  getattr_view_loop P buf (View t off) ks = Ok (View T o).
Proof.
  induction ks as [|k ks IH]; intros t off o T H HT; simpl in H.
  - by inversion H; subst.
  - destruct (field_lookup k t) as [f|] eqn:Hf; [|done].
    cbn [getattr_view_loop getattr_view]. rewrite Hf.
    rewrite (resolve_is_structure _ _ _ _ _ H HT). cbn [result_bind].
    by apply IH.
Qed.

(** A path of at least one segment that resolves: its last segment is a
    field of the structure the segments before it resolve to. *)
Lemma resolve_last t ks o T :
  ks <> [] ->
  resolve t 0 ks = Some (o, T) ->
  exists o' T' f,
    resolve t 0 (removelast ks) = Some (o', T') /\
    field_lookup (List.last ks EmptyString) T' = Some f /\
    o = o' + f_offset f /\ T = f_type f.
Proof.
  intros Hne H.
  rewrite (app_removelast_last EmptyString Hne), resolve_app in H.
  destruct (resolve t 0 (removelast ks)) as [[o' T']|]; [|done].
  simpl in H.
  destruct (field_lookup (List.last ks EmptyString) T') as [f|] eqn:Hf; [|done].
  inversion H; subst. eauto 10.
Qed.

End Walk.

(** ** The accessors on an open mapping *)

Section Accessors.
Variable P : platform.

Ltac run :=
  unfold bind, ret, raise, lift, self_mm, self_structType, self_mmapFilePath,
    mm_seek, from_buffer, from_buffer_copy, peek_mapping, store_mapping,
    time_time; cbn [self env mm set_mm structType mm_file fst snd].

Lemma mapped_after_store s m off bs m' :
  mm_file m' = mm_file m ->
  mapped (env (after_store s m off bs)) m' = poke off bs (mapped (env s) m).
Proof.
  intros E. unfold mapped, after_store. simpl. rewrite E.
  by rewrite lookup_insert_eq.
Qed.

Lemma readData_field s m key o T :
  mm (self s) = Some m ->
  wf_ctype (structType (self s)) = true ->
  sizeof (structType (self s)) <= length (mapped (env s) m) ->
  resolve (structType (self s)) 0 (split_dot key) = Some (o, T) ->
  readData P key s
  = (Ok (to_python T (slice o (sizeof T) (mapped (env s) m))),
     after_map (FromBufferCopy (mm_file m)) s m).
Proof.
  intros Hmm Hwf Hlen Hres. unfold readData. run. rewrite Hmm. run.
  change (mapped (log (Seek 0) (env s)) (Mmap (mm_file m) 0))
    with (mapped (env s) m).
  destruct (Nat.ltb_spec (length (mapped (env s) m)) (sizeof (structType (self s))));
    [lia|].
  set (t := structType (self s)) in *. set (buf := mapped (env s) m) in *.
  assert (Hs : is_structure t = true).
  { pose proof (split_dot_nonempty key) as Hne.
    destruct (split_dot key) as [|k ks]; [done|]. simpl in Hres.
    destruct (field_lookup k t) eqn:Hf; [|done].
    by eapply field_lookup_structure. }
  assert (Hv : PyStruct t (take (sizeof t) buf)
               = to_python t (slice 0 (sizeof t) (take (sizeof t) buf))).
  { destruct t; try discriminate. cbn [to_python]. f_equal.
    unfold slice. by rewrite drop_0, take_idemp. }
  rewrite Hv, (getattr_loop_resolve P _ _ _ _ _ _ Hwf Hres).
  destruct (resolve_wf _ _ _ _ _ Hwf Hres) as (_ & _ & Hb).
  rewrite slice_take by lia. reflexivity.
Qed.

Lemma writeData_field s m key o T v bs :
  mm (self s) = Some m ->
  sizeof (structType (self s)) <= length (mapped (env s) m) ->
  resolve (structType (self s)) 0 (split_dot key) = Some (o, T) ->
  from_python P T v = Ok bs ->
  writeData P key v s = (Ok PyNone, after_store s m o bs).
Proof.
  intros Hmm Hlen Hres Hbs. unfold writeData. run. rewrite Hmm. run.
  rewrite Hmm. run.
  change (mapped (log (Seek 0) (env s)) m) with (mapped (env s) m).
  destruct (Nat.ltb_spec (length (mapped (env s) m)) (sizeof (structType (self s))));
    [lia|].
  destruct (resolve_last _ _ _ _ (split_dot_nonempty key) Hres)
    as (o' & T' & f & Hpre & Hf & -> & ->).
  rewrite (getattr_view_loop_resolve P _ _ _ _ _ _ Hpre
             (field_lookup_structure _ _ _ Hf)).
  unfold setattr_view. rewrite Hf, Hbs. reflexivity.
Qed.

(** Reading a field back from the state a store into it left. *)
Lemma readData_after_store s m key off T v bs :
  mm (self s) = Some m ->
  wf_ctype (structType (self s)) = true ->
  sizeof (structType (self s)) <= length (mapped (env s) m) ->
  resolve (structType (self s)) 0 (split_dot key) = Some (off, T) ->
  length bs <= sizeof T ->
  (forall rest, length rest = sizeof T - length bs ->
                to_python T (bs ++ rest) = v) ->
  readData P key (after_store s m off bs)
  = (Ok v, after_map (FromBufferCopy (mm_file m)) (after_store s m off bs)
             (Mmap (mm_file m) 0)).
Proof.
  intros Hmm Hwf Hlen Hres Hl Hback.
  destruct (resolve_wf _ _ _ _ _ Hwf Hres) as (_ & _ & Hb).
  erewrite (readData_field _ (Mmap (mm_file m) 0)); try done.
  - rewrite mapped_after_store by done.
    rewrite slice_poke_prefix by lia. rewrite Hback; [done|].
    rewrite length_slice; lia.
  - rewrite mapped_after_store by done. rewrite length_poke; simpl; lia.
Qed.


Lemma getLastUpdate_open s m :
  mm (self s) = Some m ->
  getLastUpdate P s = readData P "header.time_stamp" s.
Proof.
  intros Hmm. unfold getLastUpdate, readData. run. rewrite Hmm. run.
  rewrite Hmm. run.
  change (split_dot "header.time_stamp") with ["header"; "time_stamp"].
  cbn [getattr_loop].
  change (mapped (log (Seek 0) (env s)) (Mmap (mm_file m) 0))
    with (mapped (env s) m).
  change (mapped (log (Seek 0) (env s)) m) with (mapped (env s) m).
  destruct (Nat.ltb _ _); [done|].
  destruct (getattr P _ "header") as [h|e]; [|done]. cbn [result_bind].
  by destruct (getattr P h "time_stamp").
Qed.


Lemma updateLastUpdate_field s m off :
  mm (self s) = Some m ->
  sizeof (structType (self s)) <= length (mapped (env s) m) ->
  resolve (structType (self s)) 0 ["header"; "time_stamp"] = Some (off, c_double) ->
  updateLastUpdate P s
  = (Ok PyNone, after_store s m off (le_split 8 (clock (env s)))).
Proof.
  intros Hmm Hlen Hres. unfold updateLastUpdate. run. rewrite Hmm. run.
  rewrite Hmm. run.
  change (mapped (log (Seek 0) (env s)) m) with (mapped (env s) m).
  destruct (Nat.ltb_spec (length (mapped (env s) m)) (sizeof (structType (self s))));
    [lia|].
  simpl in Hres.
  destruct (field_lookup "header" (structType (self s))) as [h|] eqn:Hh; [|done].
  destruct (field_lookup "time_stamp" (f_type h)) as [ts|] eqn:Hts; [|done].
  inversion Hres as [[Hoff Hty]].
  unfold getattr_view. rewrite Hh, (field_lookup_structure _ _ _ Hts).
  unfold setattr_view. rewrite Hts, Hty. reflexivity.
Qed.

Lemma clearMappedBuffer_open s m :
  mm (self s) = Some m ->
  sizeof (structType (self s)) <= length (mapped (env s) m) ->
  clearMappedBuffer s
  = (Ok PyNone,
     after_store s m 0 (replicate (sizeof (structType (self s))) Byte.x00)).
Proof.
  intros Hmm Hlen. unfold clearMappedBuffer. run. rewrite Hmm. run.
  rewrite Hmm. run.
  change (mapped (log (Seek 0) (env s)) m) with (mapped (env s) m).
  destruct (Nat.ltb_spec (length (mapped (env s) m)) (sizeof (structType (self s))));
    [lia|].
  reflexivity.
Qed.


(** X22. [clearMappedBuffer] zeroes as many bytes as the record has, from
    the start of the mapping; what the mapping holds beyond them stays. *)
Lemma clearMappedBuffer_bytes s m :
  mm (self s) = Some m ->
  sizeof (structType (self s)) <= length (mapped (env s) m) ->
  mapped (env (snd (clearMappedBuffer s))) m
  = replicate (sizeof (structType (self s))) Byte.x00
    ++ drop (sizeof (structType (self s))) (mapped (env s) m).
Proof.
  intros Hmm Hlen. rewrite (clearMappedBuffer_open _ _ Hmm Hlen).
  cbn [snd]. rewrite mapped_after_store by done.
  unfold poke. by rewrite take_0, length_replicate.
Qed.


(** C10. With no mapped region, [writeData], [updateLastUpdate] and
    [clearMappedBuffer] return [None] without raising and leave the object,
    the files and everything else as they were. *)
Theorem editor_without_mapping_is_noop s key value :
  mm (self s) = None ->
  writeData P key value s = (Ok PyNone, s) /\
  updateLastUpdate P s = (Ok PyNone, s) /\
  clearMappedBuffer s = (Ok PyNone, s).
Proof.
  intros Hmm. unfold writeData, updateLastUpdate, clearMappedBuffer. run.
  by rewrite Hmm.
Qed.

End Accessors.

(** ** Traces: the seek before every access, and the lock *)

Section LockFree.

Lemma lock_free_silent {A} (op : M A) :
  (forall s, trace (env (snd (op s))) = trace (env s)) -> lock_free op.
Proof. intros H s. exists []. by rewrite H, app_nil_r. Qed.

Lemma lock_free_bind {A B} (m : M A) (f : A -> M B) :
  lock_free m -> (forall a, lock_free (f a)) -> lock_free (bind m f).
Proof.
  intros Hm Hf s. unfold bind. destruct (Hm s) as (e1 & H1 & F1).
  destruct (m s) as [[a|e] s']; simpl in *.
  - destruct (Hf a s') as (e2 & H2 & F2). exists (e1 ++ e2).
    rewrite H2, H1, app_assoc, forallb_app, F1, F2. auto.
  - eauto.
Qed.

Lemma lock_free_try_except_pass (body : M unit) :
  lock_free body -> lock_free (try_except_pass body).
Proof.
  intros Hb s. unfold try_except_pass. destruct (Hb s) as (evs & H & F).
  destruct (body s) as [[a|e] s']; simpl in *; eauto.
Qed.

Lemma lock_free_ret {A} (a : A) : lock_free (ret a).
Proof. by apply lock_free_silent. Qed.

Lemma lock_free_raise {A} e : lock_free (@raise A e).
Proof. by apply lock_free_silent. Qed.

Lemma lock_free_lift {A} (r : result A) : lock_free (lift r).
Proof. by apply lock_free_silent. Qed.

Lemma lock_free_self_mm : lock_free self_mm.
Proof. by apply lock_free_silent. Qed.

Lemma lock_free_self_structType : lock_free self_structType.
Proof. by apply lock_free_silent. Qed.

Lemma lock_free_self_mmapFilePath : lock_free self_mmapFilePath.
Proof. by apply lock_free_silent. Qed.

Lemma lock_free_time_time : lock_free time_time.
Proof. by apply lock_free_silent. Qed.

Lemma lock_free_peek_mapping m : lock_free (peek_mapping m).
Proof. by apply lock_free_silent. Qed.

Lemma lock_free_mm_seek pos : lock_free (mm_seek pos).
Proof.
  intros s. unfold mm_seek. destruct (mm (self s)); simpl.
  - by exists [Seek pos].
  - exists []. by rewrite app_nil_r.
Qed.

Lemma lock_free_from_buffer m : lock_free (from_buffer m).
Proof.
  intros s. unfold from_buffer. destruct (Nat.ltb _ _); simpl.
  - exists []. by rewrite app_nil_r.
  - by exists [FromBuffer (mm_file m)].
Qed.

Lemma lock_free_from_buffer_copy m : lock_free (from_buffer_copy m).
Proof.
  intros s. unfold from_buffer_copy. destruct m as [m|]; simpl.
  - destruct (Nat.ltb _ _); simpl.
    + exists []. by rewrite app_nil_r.
    + by exists [FromBufferCopy (mm_file m)].
  - exists []. by rewrite app_nil_r.
Qed.

Lemma lock_free_store_mapping m st : lock_free (store_mapping m st).
Proof.
  intros s. unfold store_mapping. destruct st as [[off bs]|]; simpl.
  - by exists [Store (mm_file m) off (length bs)].
  - exists []. by rewrite app_nil_r.
Qed.

Lemma lock_free_open_wb path : lock_free (open_wb path).
Proof.
  intros s. unfold open_wb. case_decide; simpl.
  - exists []. by rewrite app_nil_r.
  - by exists [OpenWrite path].
Qed.

Lemma lock_free_fs_write path data : lock_free (fs_write path data).
Proof. apply lock_free_silent. intros s. unfold fs_write. by destruct data. Qed.

End LockFree.

Create HintDb lockfree.
#[local] Hint Resolve lock_free_ret lock_free_raise lock_free_lift
  lock_free_self_mm lock_free_self_structType lock_free_self_mmapFilePath
  lock_free_time_time lock_free_peek_mapping lock_free_mm_seek
  lock_free_from_buffer lock_free_from_buffer_copy lock_free_store_mapping
  lock_free_open_wb lock_free_fs_write lock_free_try_except_pass : lockfree.

Ltac lock_free_tac :=
  repeat first
    [ apply lock_free_bind; [|intros ?]
    | apply lock_free_try_except_pass
    | match goal with |- lock_free (match ?x with _ => _ end) => destruct x end
    | solve [auto with lockfree] ].

Section Traces.
Variable P : platform.

Lemma lock_free_getLastUpdate : lock_free (getLastUpdate P).
Proof. unfold getLastUpdate. lock_free_tac. Qed.

Lemma lock_free_readData key : lock_free (readData P key).
Proof. unfold readData. lock_free_tac. Qed.

Lemma lock_free_readMappedBuffer : lock_free readMappedBuffer.
Proof. unfold readMappedBuffer. lock_free_tac. Qed.

Lemma lock_free_updateLastUpdate : lock_free (updateLastUpdate P).
Proof. unfold updateLastUpdate. lock_free_tac. Qed.

Lemma lock_free_writeData key value : lock_free (writeData P key value).
Proof. unfold writeData. lock_free_tac. Qed.

Lemma lock_free_referMappedBuffer : lock_free referMappedBuffer.
Proof. unfold referMappedBuffer. lock_free_tac. Qed.

Lemma lock_free_clearMappedBuffer : lock_free clearMappedBuffer.
Proof. unfold clearMappedBuffer, memset_zero. lock_free_tac. Qed.

Lemma lock_free_create :
  lock_free (dataStruct <- _generateStruct P;; _createNewMmapFile dataStruct)%py.
Proof. unfold _generateStruct, _createNewMmapFile. lock_free_tac. Qed.

Lemma lock_free_events {A} (op : M A) s :
  lock_free op ->
  forallb (fun e => negb (is_lock_event e)) (events_of op s) = true.
Proof.
  intros H. destruct (H s) as (evs & Htr & F). unfold events_of.
  by rewrite Htr, drop_app_length.
Qed.

End Traces.

Section Discipline.
Variable P : platform.

(** C3, as the code has it. None of [readData], [readMappedBuffer],
    [writeData], [updateLastUpdate], [clearMappedBuffer] and the Manager's
    constructor (whatever [create] and [force]) acquires or releases the
    advisory lock: on every exit path, failures included, the events they
    add are seeks, accesses to the mapping and the opening of the file, and
    no lock operation. *)
Theorem critical_sections_take_no_lock key value s :
  no_lock_event (events_of (readData P key) s) = true /\
  no_lock_event (events_of readMappedBuffer s) = true /\
  no_lock_event (events_of (writeData P key value) s) = true /\
  no_lock_event (events_of (updateLastUpdate P) s) = true /\
  no_lock_event (events_of clearMappedBuffer s) = true /\
  (forall structName tag mmapDir fastenerDir create force w,
     exists evs,
       trace (snd (DataStructMmapManager_init P structName tag mmapDir
                     fastenerDir create force w)) = trace w ++ evs /\
       no_lock_event evs = true).
Proof.
  repeat split.
  - apply lock_free_events, lock_free_readData.
  - apply lock_free_events, lock_free_readMappedBuffer.
  - apply lock_free_events, lock_free_writeData.
  - apply lock_free_events, lock_free_updateLastUpdate.
  - apply lock_free_events, lock_free_clearMappedBuffer.
  - intros. unfold DataStructMmapManager_init.
    destruct (DataStructMmapEditor_init _ _ _ _ _ _) as [a|e]; simpl;
      [|exists []; by rewrite app_nil_r].
    destruct create; [|exists []; by rewrite app_nil_r].
    destruct (force || _); [|exists []; by rewrite app_nil_r].
    destruct (lock_free_create P (State (set_editable true a) w))
      as (evs & Htr & F).
    destruct ((_ <- _generateStruct P;; _createNewMmapFile _)%py _)
      as [[u|e] s']; simpl in *; eauto.
Qed.

Ltac open_op Hmm :=
  unfold bind, ret, raise, lift, self_mm, mm_seek, from_buffer,
    from_buffer_copy, peek_mapping, store_mapping, time_time, memset_zero;
  cbn [self env mm set_mm structType mm_file fst snd];
  rewrite ?Hmm;
  cbn [self env mm set_mm structType mm_file fst snd];
  rewrite ?Hmm.

Ltac plain_scrutinee x :=
  lazymatch x with
  | context [match _ with _ => _ end] => fail
  | context [if _ then _ else _] => fail
  | _ => idtac
  end.

Ltac first_event :=
  repeat first
    [ progress cbn [fst snd env trace log set_files self store_mapping]
    | match goal with
      | |- context [match ?x with _ => _ end] => plain_scrutinee x; destruct x
      | |- context [if ?x then _ else _] => plain_scrutinee x; destruct x
      end ];
  rewrite <- ?app_assoc, drop_app_length; simpl; eauto.

(** C9. Each of the seven operations on the mapped region, when a region is
    open, seeks the mapping to offset 0 before anything else, and runs the
    same from whatever position an earlier call left: same result, same
    final state. *)
Theorem every_operation_reseeks key value :
  reseeks (getLastUpdate P) /\
  reseeks (readData P key) /\
  reseeks readMappedBuffer /\
  reseeks (updateLastUpdate P) /\
  reseeks (writeData P key value) /\
  reseeks referMappedBuffer /\
  reseeks clearMappedBuffer.
Proof.
  repeat apply conj; intros s m Hmm.
  all: split; [unfold events_of | intros pos; unfold with_pos; rewrite Hmm].
  all: unfold getLastUpdate, readData, readMappedBuffer, updateLastUpdate,
         writeData, referMappedBuffer, clearMappedBuffer.
  all: open_op Hmm; first [reflexivity | first_event].
Qed.

End Discipline.

(** ** Construction *)

Section Construction.
Variable P : platform.



Lemma Editor_init_editable structName tag mmapDir fastenerDir w a :
  DataStructMmapEditor_init P structName tag mmapDir fastenerDir w = Ok a ->
  set_editable true a = a.
Proof.
  unfold DataStructMmapEditor_init, DataStructMmapReader_init,
    BaseStructMmapManager_init.
  destruct (_searchStructType w structName); simpl; [|done].
  intros H. by inversion H.
Qed.



Lemma _generateStruct_state s : snd (_generateStruct P s) = s.
Proof.
  unfold _generateStruct, bind, lift, self_structType, time_time. simpl.
  destruct (new_struct P (MmapStructureHeader P) _) as [h|]; simpl; [|done].
  by destruct (new_struct P (structType (self s)) [h]).
Qed.








(** C4. Constructing a Manager with [create] true and [force] false when the
    backing file exists returns the accessor and leaves every file, the
    backing file's size and contents included, as it was; doing so a second
    time does the same. *)
Theorem create_without_force_keeps_file
    w structName tag mmapDir fastenerDir a :
  DataStructMmapEditor_init P structName tag mmapDir fastenerDir w = Ok a ->
  path_exists w (mmapFilePath a) = true ->
  let once :=
    DataStructMmapManager_init P structName tag mmapDir fastenerDir
      true false w in
  once = (Ok a, w) /\
  files (snd once) !! mmapFilePath a = files w !! mmapFilePath a /\
  DataStructMmapManager_init P structName tag mmapDir fastenerDir
    true false (snd once) = once.
Proof.
  intros Hinit Hex.
  assert (H1 : DataStructMmapManager_init P structName tag mmapDir fastenerDir
                 true false w = (Ok a, w)).
  { unfold DataStructMmapManager_init. rewrite Hinit.
    rewrite (Editor_init_editable _ _ _ _ _ _ Hinit). by rewrite Hex. }
  simpl. rewrite H1. simpl. auto.
Qed.

End Construction.

(** ** Paths that do not resolve *)

Section Unresolved.
Variable P : platform.








(** X19. When it is the last segment of the path that is no field of the
    structure reached, [writeData] hands the name to the generic attribute
    assignment and stores nothing in the mapping: where Python binds the
    name on the temporary object, the write returns normally and is lost. *)
Lemma writeData_unknown_last_segment s m key value o T :
  mm (self s) = Some m ->
  sizeof (structType (self s)) <= length (mapped (env s) m) ->
  resolve (structType (self s)) 0 (removelast (split_dot key)) = Some (o, T) ->
  is_structure T = true ->
  field_lookup (List.last (split_dot key) EmptyString) T = None ->
  fst (writeData P key value s)
  = result_map (fun _ => PyNone)
      (object_setattr P (PyStruct T (slice o (sizeof T) (mapped (env s) m)))
         (List.last (split_dot key) EmptyString) value) /\
  files (env (snd (writeData P key value s))) = files (env s).
Proof.
  intros Hmm Hlen Hres Hs Hk.
  unfold writeData, bind, lift, ret, self_mm, mm_seek, from_buffer,
    peek_mapping, store_mapping.
  rewrite Hmm. cbn [self env mm set_mm structType mm_file fst snd].
  rewrite Hmm. cbn [self env mm set_mm structType mm_file fst snd].
  change (mapped (log (Seek 0) (env s)) m) with (mapped (env s) m).
  destruct (Nat.ltb_spec (length (mapped (env s) m))
              (sizeof (structType (self s)))); [lia|].
  cbn [self env fst snd].
  change (mapped (log (FromBuffer (mm_file m)) (log (Seek 0) (env s))) m)
    with (mapped (env s) m).
  rewrite (getattr_view_loop_resolve P _ _ _ _ _ _ Hres Hs).
  unfold setattr_view. rewrite Hk.
  by destruct (object_setattr P _ _ _).
Qed.

End Unresolved.

(** ** Further properties: resolution and construction *)

Section MoreConstruction.
Variable P : platform.

(** X1. Among the subclasses, the first one that bears the name is the one
    [_searchStructType] returns, whatever bears the same name after it. *)
Theorem _searchStructType_first_match w structName before st after :
  subclasses w = before ++ st :: after ->
  (forall st0, In st0 before -> __name__ st0 <> structName) ->
  __name__ st = structName ->
  _searchStructType w structName = Ok st.
Proof.
  intros Hsub Hno Hname. unfold _searchStructType. rewrite Hsub.
  clear Hsub. induction before as [|b before IH]; simpl.
  - by rewrite <- Hname, String.eqb_refl.
  - destruct (String.eqb_spec structName (__name__ b)) as [E|_].
    + destruct (Hno b); [by left | done].
    + apply IH. intros st0 Hin. apply Hno. by right.
Qed.

Lemma Manager_init_noop w structName tag mmapDir fastenerDir create force :
  create = false \/
  (force = false /\
   forall a, DataStructMmapEditor_init P structName tag mmapDir fastenerDir w
             = Ok a -> path_exists w (mmapFilePath a) = true) ->
  snd (DataStructMmapManager_init P structName tag mmapDir fastenerDir
         create force w) = w.
Proof.
  intros H. unfold DataStructMmapManager_init.
  destruct (DataStructMmapEditor_init P structName tag mmapDir fastenerDir w)
    as [a|e] eqn:Hinit; [|done].
  rewrite (Editor_init_editable _ _ _ _ _ _ _ Hinit).
  destruct H as [->|[-> Hex]]; [done|].
  destruct create; [|done]. by rewrite (Hex a eq_refl).
Qed.

(** X3. The Manager's constructor changes the files only on its create
    path: with [create] false, or with [force] false and the backing file
    present, the world it leaves is the world it found, whether it returns
    or raises. *)
Theorem Manager_init_world_unchanged
    w structName tag mmapDir fastenerDir create force :
  create = false \/
  (force = false /\
   forall a, DataStructMmapEditor_init P structName tag mmapDir fastenerDir w
             = Ok a -> path_exists w (mmapFilePath a) = true) ->
  snd (DataStructMmapManager_init P structName tag mmapDir fastenerDir
         create force w) = w.
Proof. apply Manager_init_noop. Qed.

(** X4. Creating without force is idempotent on every world: whatever the
    first construction with [create] true and [force] false did (nothing,
    a failure, a discarded failure or a fresh file), a second one with the
    same arguments leaves the world as the first left it. *)
Theorem create_without_force_idempotent
    w structName tag mmapDir fastenerDir :
  let once :=
    DataStructMmapManager_init P structName tag mmapDir fastenerDir
      true false w in
  snd (DataStructMmapManager_init P structName tag mmapDir fastenerDir
         true false (snd once)) = snd once.
Proof.
  cbn zeta.
  destruct (DataStructMmapEditor_init P structName tag mmapDir fastenerDir w)
    as [a|e] eqn:Hinit.
  2:{ assert (Hw : snd (DataStructMmapManager_init P structName tag mmapDir
                          fastenerDir true false w) = w).
      { unfold DataStructMmapManager_init. by rewrite Hinit. }
      by rewrite Hw, Hw. }
  destruct (path_exists w (mmapFilePath a)) eqn:Hex.
  { assert (Hw : snd (DataStructMmapManager_init P structName tag mmapDir
                        fastenerDir true false w) = w).
    { apply Manager_init_noop. right. split; [done|].
      intros a' Ha'. rewrite Hinit in Ha'. by inversion Ha'; subst. }
    by rewrite Hw, Hw. }
  set (w1 := snd (DataStructMmapManager_init P structName tag mmapDir
                    fastenerDir true false w)).
  assert (Hcases : w1 = w \/
            (subclasses w1 = subclasses w /\
             path_exists w1 (mmapFilePath a) = true)).
  { unfold w1, DataStructMmapManager_init.
    rewrite Hinit, (Editor_init_editable _ _ _ _ _ _ _ Hinit), Hex.
    cbn [negb orb]. unfold bind.
    pose proof (_generateStruct_state P (State a w)) as Hst.
    destruct (_generateStruct P (State a w)) as [[v|e] s']; simpl in *;
      subst s'; [|by left].
    unfold _createNewMmapFile, try_except_pass, bind, self_mmapFilePath,
      open_wb, fs_write. cbn [self env fst snd].
    case_decide; cbn [self env fst snd]; [by left|].
    right. destruct v; cbn [self env fst snd subclasses log set_files];
      (split; [done|]); unfold path_exists; cbn [files log set_files];
      apply bool_decide_eq_true; rewrite ?dom_insert; set_solver. }
  destruct Hcases as [Hw|[Hsub Hex1]].
  { rewrite Hw. exact Hw. }
  apply Manager_init_noop. right. split; [done|].
  intros a' Ha'.
  assert (a' = a) as ->; [|done].
  unfold DataStructMmapEditor_init, DataStructMmapReader_init,
    BaseStructMmapManager_init, _searchStructType in *.
  rewrite Hsub in Ha'. rewrite Hinit in Ha'. by inversion Ha'.
Qed.

End MoreConstruction.

(** ** Further properties: the fresh store *)

Section MoreBytes.
Implicit Types (buf bs : list byte) (off n : nat).

Lemma lookup_slice off n buf i :
  slice off n buf !! i = if decide (i < n) then buf !! (off + i) else None.
Proof. unfold slice. by rewrite lookup_take, lookup_drop. Qed.

(** Reading inside what was just stored. *)
Lemma slice_poke_inner off bs buf off' n :
  off <= length buf -> off' + n <= length bs ->
  slice (off + off') n (poke off bs buf) = slice off' n bs.
Proof.
  intros H1 H2. rewrite <- (slice_slice off (length bs)) by exact H2.
  by rewrite slice_poke.
Qed.

(** Reading beside what was just stored. *)
Lemma slice_poke_disjoint off bs buf off' n :
  off + length bs <= length buf ->
  off' + n <= off \/ off + length bs <= off' ->
  slice off' n (poke off bs buf) = slice off' n buf.
Proof.
  intros Hlen Hd. apply list_eq; intros i. rewrite !lookup_slice.
  case_decide; [|done]. apply lookup_poke_outside; [done|lia].
Qed.

Lemma le_combine_zeros n : le_combine (replicate n Byte.x00) = 0%Z.
Proof.
  induction n as [|n IH]; [done|].
  change (replicate (S n) Byte.x00) with (Byte.x00 :: replicate n Byte.x00).
  change (le_combine (Byte.x00 :: replicate n Byte.x00))
    with (Z.lor (byte.unsigned Byte.x00)
            (Z.shiftl (le_combine (replicate n Byte.x00)) 8)).
  rewrite IH. reflexivity.
Qed.

Lemma slice_zeros off n k :
  off + n <= k ->
  slice off n (replicate k Byte.x00) = replicate n Byte.x00.
Proof.
  intros H. unfold slice. rewrite drop_replicate, take_replicate.
  f_equal. lia.
Qed.

End MoreBytes.

Section FreshStore.
Variable P : platform.

Lemma header_instance hname hsz mn mo sg w tn to hfs now :
  MmapStructureHeader P
  = Structure hname hsz
      (Field mn mo (c_int sg w) :: Field tn to c_double :: hfs) ->
  new_struct P (MmapStructureHeader P) [PyInt 0x1128; PyFloat now]
  = Ok (PyStruct (MmapStructureHeader P)
          (poke to (le_split 8 now)
             (poke mo (le_split w 0x1128) (replicate hsz Byte.x00)))).
Proof. intros ->. by destruct hfs. Qed.

Lemma _generateStruct_default s n sz hn ho fs hname hsz mn mo sg w tn to hfs :
  structType (self s)
  = Structure n sz (Field hn ho (MmapStructureHeader P) :: fs) ->
  MmapStructureHeader P
  = Structure hname hsz
      (Field mn mo (c_int sg w) :: Field tn to c_double :: hfs) ->
  mo + w <= hsz -> to + 8 <= hsz ->
  _generateStruct P s
  = (Ok (PyStruct (structType (self s))
           (default_record sz ho hsz mo w to (clock (env s)))), s).
Proof.
  intros Ht Hh Hmo Hto.
  unfold _generateStruct, bind, lift, self_structType, time_time.
  cbn [fst snd].
  rewrite (header_instance _ _ _ _ _ _ _ _ _ _ Hh).
  set (hb := poke to _ _).
  assert (Hlen : length hb = hsz).
  { unfold hb. rewrite !length_poke; rewrite ?length_poke;
      rewrite ?length_le_split, ?length_replicate; lia. }
  rewrite Ht. unfold new_struct.
  cbn [_fields_ sizeof init_fields f_type f_offset].
  assert (Hfrom : from_python P (MmapStructureHeader P)
                    (PyStruct (MmapStructureHeader P) hb) = Ok hb).
  { rewrite Hh at 1. unfold from_python. rewrite <- Hh, ctype_eqb_refl.
    cbn [orb]. rewrite Hh at 1. cbn [sizeof]. by rewrite take_ge by lia. }
  rewrite Hfrom. by destruct fs.
Qed.

Lemma Manager_init_create_world
    w structName tag mmapDir fastenerDir force a ds :
  DataStructMmapEditor_init P structName tag mmapDir fastenerDir w = Ok a ->
  force || negb (path_exists w (mmapFilePath a)) = true ->
  mmapFilePath a ∉ denied w ->
  fst (_generateStruct P (State a w)) = Ok (PyStruct (structType a) ds) ->
  DataStructMmapManager_init P structName tag mmapDir fastenerDir true force w
  = (Ok a, log (OpenWrite (mmapFilePath a))
             (set_files (<[mmapFilePath a := ds]> (files w)) w)).
Proof.
  intros Hinit Hgo Hden Hgen. unfold DataStructMmapManager_init.
  rewrite Hinit, (Editor_init_editable _ _ _ _ _ _ _ Hinit), Hgo.
  unfold bind.
  pose proof (_generateStruct_state P (State a w)) as Hst.
  destruct (_generateStruct P (State a w)) as [[v|e] s']; simpl in *; [|done].
  subst s'. inversion Hgen; subst v.
  unfold _createNewMmapFile, try_except_pass, bind, self_mmapFilePath,
    open_wb, fs_write. cbn [self env fst snd].
  rewrite decide_False by done. cbn [self env fst snd files log set_files].
  rewrite lookup_insert_eq. cbn [default app].
  by rewrite insert_insert_eq.
Qed.

(** X5. The store the Manager creates.  For a struct whose first field is
    the header, the header's first two fields being the magic number and the
    time stamp, a construction on the create path (file absent, or [force])
    with a writable path returns the accessor and leaves a backing file of
    exactly [sizeof] bytes, whatever was there before: the magic field holds
    0x1128, the time stamp holds the clock's reading, and every byte outside
    the header is zero. *)
Theorem created_store_is_default_record
    w structName tag mmapDir fastenerDir force a
    n sz hn ho fs hname hsz mn mo sg wd tn to hfs :
  DataStructMmapEditor_init P structName tag mmapDir fastenerDir w = Ok a ->
  structType a = Structure n sz (Field hn ho (MmapStructureHeader P) :: fs) ->
  MmapStructureHeader P
  = Structure hname hsz
      (Field mn mo (c_int sg wd) :: Field tn to c_double :: hfs) ->
  mo + wd <= to -> to + 8 <= hsz -> ho + hsz <= sz ->
  force = true \/ path_exists w (mmapFilePath a) = false ->
  mmapFilePath a ∉ denied w ->
  exists bs,
    DataStructMmapManager_init P structName tag mmapDir fastenerDir
      true force w
    = (Ok a, log (OpenWrite (mmapFilePath a))
               (set_files (<[mmapFilePath a := bs]> (files w)) w)) /\
    length bs = sz /\
    slice (ho + mo) wd bs = le_split wd 0x1128 /\
    slice (ho + to) 8 bs = le_split 8 (clock w) /\
    (forall i, i < sz -> i < ho \/ ho + hsz <= i -> bs !! i = Some Byte.x00).
Proof.
  intros Hinit Ht Hh Hmo Hto Hho Hgo Hden.
  exists (default_record sz ho hsz mo wd to (clock w)).
  split; [|].
  { apply Manager_init_create_world; [done| |done|].
    - destruct Hgo as [->| ->]; [done | by rewrite orb_true_r].
    - erewrite (_generateStruct_default (State a w)); [done|done|done|lia|lia]. }
  unfold default_record.
  set (zs := replicate hsz Byte.x00).
  set (mg := le_split wd 0x1128). set (ts := le_split 8 (clock w)).
  assert (Lmg : length mg = wd) by apply length_le_split.
  assert (Lts : length ts = 8) by apply length_le_split.
  assert (Lzs : length zs = hsz) by apply length_replicate.
  assert (L1 : length (poke mo mg zs) = hsz) by (rewrite length_poke; lia).
  assert (L2 : length (poke to ts (poke mo mg zs)) = hsz)
    by (rewrite length_poke; lia).
  repeat split.
  - rewrite length_poke; rewrite length_replicate; lia.
  - rewrite slice_poke_inner; [|rewrite length_replicate; lia|lia].
    rewrite slice_poke_disjoint; [|lia|lia].
    rewrite <- Lmg at 1. apply slice_poke. lia.
  - rewrite slice_poke_inner; [|rewrite length_replicate; lia|lia].
    rewrite <- Lts at 1. apply slice_poke. lia.
  - intros i Hi Hout.
    rewrite lookup_poke_outside; [|rewrite length_replicate; lia|lia].
    by apply lookup_replicate_2.
Qed.

End FreshStore.

(** ** Further properties: the operations on the mapping *)

Ltac unfold_op :=
  unfold getLastUpdate, readData, readMappedBuffer, updateLastUpdate,
    writeData, referMappedBuffer, clearMappedBuffer, memset_zero,
    bind, ret, raise, lift, self_mm, mm_seek, from_buffer, from_buffer_copy,
    peek_mapping, store_mapping, time_time.

Ltac simpl_state :=
  cbn [self env mm set_mm structType mm_file fst snd files trace log
       set_files mmapFilePath fastenerFilePath editable store_mapping].

Ltac no_match_in x :=
  lazymatch x with
  | context [match _ with _ => _ end] => fail
  | context [if _ then _ else _] => fail
  | _ => idtac
  end.

Ltac split_paths :=
  repeat first
    [ progress simpl_state
    | match goal with
      | |- context [match ?x with _ => _ end] => no_match_in x; destruct x
      | |- context [if ?x then _ else _] => no_match_in x; destruct x
      end ].

Section MoreAccessors.
Variable P : platform.

(** X6. The reading operations never write: [getLastUpdate], [readData],
    [readMappedBuffer] and [referMappedBuffer] leave every file as it is,
    with or without a mapping, whether they return or raise. *)
Theorem reads_leave_files_alone key :
  read_only (getLastUpdate P) /\
  read_only (readData P key) /\
  read_only readMappedBuffer /\
  read_only referMappedBuffer.
Proof.
  repeat apply conj; intros s; unfold_op;
    destruct (mm (self s)) as [m|]; split_paths; reflexivity.
Qed.

Lemma short_mapping_raises_ValueError_aux s m key value :
  mm (self s) = Some m ->
  length (mapped (env s) m) < sizeof (structType (self s)) ->
  snd (writeData P key value s)
    = State (set_mm (Some (Mmap (mm_file m) 0)) (self s)) (log (Seek 0) (env s)) /\
  snd (updateLastUpdate P s)
    = State (set_mm (Some (Mmap (mm_file m) 0)) (self s)) (log (Seek 0) (env s)) /\
  snd (clearMappedBuffer s)
    = State (set_mm (Some (Mmap (mm_file m) 0)) (self s)) (log (Seek 0) (env s)).
Proof.
  intros Hmm Hlen.
  assert (H1 : Nat.ltb (length (mapped (log (Seek 0) (env s)) m))
                       (sizeof (structType (self s))) = true)
    by (apply Nat.ltb_lt; exact Hlen).
  repeat apply conj; unfold_op; rewrite Hmm; simpl_state; rewrite ?Hmm;
    simpl_state; rewrite ?H1; reflexivity.
Qed.

(** X7. A mapping shorter than the record: each of the seven operations
    seeks to 0, fails with [ValueError] when the structure is laid over the
    mapping, and has stored nothing. *)
Theorem short_mapping_raises_ValueError s m key value :
  mm (self s) = Some m ->
  length (mapped (env s) m) < sizeof (structType (self s)) ->
  let s' := State (set_mm (Some (Mmap (mm_file m) 0)) (self s))
                  (log (Seek 0) (env s)) in
  getLastUpdate P s = (Raise ValueError, s') /\
  readData P key s = (Raise ValueError, s') /\
  readMappedBuffer s = (Raise ValueError, s') /\
  updateLastUpdate P s = (Raise ValueError, s') /\
  writeData P key value s = (Raise ValueError, s') /\
  referMappedBuffer s = (Raise ValueError, s') /\
  clearMappedBuffer s = (Raise ValueError, s').
Proof.
  intros Hmm Hlen. cbn zeta.
  assert (H1 : Nat.ltb (length (mapped (log (Seek 0) (env s)) m))
                       (sizeof (structType (self s))) = true)
    by (apply Nat.ltb_lt; exact Hlen).
  assert (H2 : Nat.ltb (length (mapped (log (Seek 0) (env s))
                                  (Mmap (mm_file m) 0)))
                       (sizeof (structType (self s))) = true)
    by (apply Nat.ltb_lt; exact Hlen).
  repeat apply conj; unfold_op; rewrite Hmm; simpl_state; rewrite ?Hmm;
    simpl_state; rewrite ?H1, ?H2; reflexivity.
Qed.

(** X8. On an open mapping, each of the seven operations leaves the
    accessor as it was but for the position of its mapping, which is 0
    afterwards, on every exit path: the struct type, both paths, the
    [editable] flag and the file the mapping shares stay. *)
Theorem operations_keep_the_accessor s m key value :
  mm (self s) = Some m ->
  let a' := set_mm (Some (Mmap (mm_file m) 0)) (self s) in
  self (snd (getLastUpdate P s)) = a' /\
  self (snd (readData P key s)) = a' /\
  self (snd (readMappedBuffer s)) = a' /\
  self (snd (updateLastUpdate P s)) = a' /\
  self (snd (writeData P key value s)) = a' /\
  self (snd (referMappedBuffer s)) = a' /\
  self (snd (clearMappedBuffer s)) = a'.
Proof.
  intros Hmm. cbn zeta.
  repeat apply conj; unfold_op; rewrite Hmm; simpl_state; rewrite ?Hmm;
    split_paths; reflexivity.
Qed.

(** X9. The writing operations reach one file only: [writeData],
    [updateLastUpdate] and [clearMappedBuffer] leave every file other than
    the one their mapping shares as it is, whether they return or raise. *)
Theorem writes_stay_in_the_mapped_file s key value q :
  (forall m, mm (self s) = Some m -> q <> mm_file m) ->
  files (env (snd (writeData P key value s))) !! q = files (env s) !! q /\
  files (env (snd (updateLastUpdate P s))) !! q = files (env s) !! q /\
  files (env (snd (clearMappedBuffer s))) !! q = files (env s) !! q.
Proof.
  intros Hq. destruct (mm (self s)) as [m|] eqn:Hmm.
  - specialize (Hq m eq_refl).
    repeat apply conj; unfold_op; rewrite Hmm; simpl_state; rewrite ?Hmm;
      split_paths; rewrite ?lookup_insert_ne by done; reflexivity.
  - repeat apply conj; unfold_op; rewrite Hmm; reflexivity.
Qed.

(** X10. The two readers without a guard and with one.  With no mapped
    region, [readData] raises [AttributeError] for [seek] (it calls
    [self.mm.seek] unguarded), while [readMappedBuffer] and
    [referMappedBuffer] return [None]; none of them changes anything. *)
Theorem reads_without_mapping s key :
  mm (self s) = None ->
  readData P key s = (Raise (AttributeError "seek"), s) /\
  readMappedBuffer s = (Ok PyNone, s) /\
  referMappedBuffer s = (Ok None, s).
Proof.
  intros Hmm. repeat apply conj; unfold_op; by rewrite Hmm.
Qed.

(** X11. [readData] reads what [readMappedBuffer] returns.  On an open
    mapping, the result of [readData key] is the walk of [key] through the
    snapshot that [readMappedBuffer] returns at that moment, and both leave
    the same state; when the snapshot cannot be taken, [readData] fails the
    same way. *)
Theorem readData_walks_the_snapshot s m key :
  mm (self s) = Some m ->
  readData P key s
  = match readMappedBuffer s with
    | (Ok snapshot, s') => (getattr_loop P snapshot (split_dot key), s')
    | (Raise e, s') => (Raise e, s')
    end.
Proof.
  intros Hmm. unfold_op. rewrite Hmm. simpl_state. rewrite Hmm. simpl_state.
  change (mapped (log (Seek 0) (env s)) (Mmap (mm_file m) 0))
    with (mapped (log (Seek 0) (env s)) m).
  by destruct (Nat.ltb _ _).
Qed.

End MoreAccessors.

Section MoreEditing.
Variable P : platform.

Lemma from_python_length t v bs :
  from_python P t v = Ok bs -> length bs <= sizeof t.
Proof.
  destruct t as [sg w| |n sz fs|n], v as [|z|b|t' bs'|r|bb];
    unfold from_python; try done;
    try (unfold result_map, result_bind;
         destruct (object_setfunc _ _ _); [|done];
         intros H; inversion H; rewrite length_take; cbn [sizeof]; lia).
  - intros H. inversion H. by rewrite length_le_split.
  - unfold result_map, result_bind. destruct (float_of_int z); [|done].
    intros H. inversion H. by rewrite length_le_split.
  - intros H. inversion H. by rewrite length_le_split.
  - destruct (_ || _); [|done]. intros H. inversion H.
    rewrite length_take. cbn [sizeof]. lia.
  - cbn [sizeof]. destruct (Nat.ltb_spec (length (until_nul bb)) n).
    + intros H'. inversion H'. rewrite length_app. simpl. lia.
    + destruct (Nat.eqb_spec (length (until_nul bb)) n); [|done].
      intros H'. inversion H'. lia.
Qed.

Lemma getattr_view_ok n buf a k a' :
  view_ok n a -> getattr_view P buf a k = Ok a' -> view_ok n a'.
Proof.
  destruct a as [t off|v]; unfold getattr_view.
  - intros [Hwf Hb]. destruct (field_lookup k t) as [f|] eqn:Hf.
    + destruct (field_lookup_wf _ _ _ Hwf Hf) as [Hin Hwf'].
      destruct (is_structure (f_type f)); intros H; inversion H; simpl;
        [split; [done|lia] | done].
    + unfold result_map, result_bind. destruct (object_getattr _ _ _);
        intros H; by inversion H.
  - intros _. unfold result_map, result_bind. destruct (getattr P v k);
      intros H; by inversion H.
Qed.

Lemma getattr_view_loop_ok n buf ks : forall a a',
  view_ok n a -> getattr_view_loop P buf a ks = Ok a' -> view_ok n a'.
Proof.
  induction ks as [|k ks IH]; intros a a' Hok; simpl.
  - intros H. by inversion H; subst.
  - destruct (getattr_view P buf a k) as [a1|] eqn:H1; simpl; [|done].
    apply IH. by eapply getattr_view_ok.
Qed.

Lemma setattr_view_ok n buf a k v off bs :
  view_ok n a -> setattr_view P buf a k v = Ok (Some (off, bs)) ->
  off + length bs <= n.
Proof.
  destruct a as [t o|x]; unfold setattr_view, result_map, result_bind.
  - intros [Hwf Hb]. destruct (field_lookup k t) as [f|] eqn:Hf.
    + destruct (field_lookup_wf _ _ _ Hwf Hf) as [Hin _].
      destruct (from_python P (f_type f) v) as [bs'|] eqn:Hfp; [|done].
      intros H. inversion H; subst.
      pose proof (from_python_length _ _ _ Hfp). lia.
    + by destruct (object_setattr _ _ _ _).
  - intros _. by destruct (object_setattr _ _ _ _).
Qed.

(** What [writeData] comes to on an open mapping that holds the record. *)
Lemma writeData_cases s m key value :
  mm (self s) = Some m ->
  sizeof (structType (self s)) <= length (mapped (env s) m) ->
  writeData P key value s
  = match getattr_view_loop P (mapped (env s) m)
            (View (structType (self s)) 0) (removelast (split_dot key)) with
    | Raise e => (Raise e, after_map (FromBuffer (mm_file m)) s m)
    | Ok attr =>
        match setattr_view P (mapped (env s) m) attr
                (List.last (split_dot key) EmptyString) value with
        | Raise e => (Raise e, after_map (FromBuffer (mm_file m)) s m)
        | Ok None => (Ok PyNone, after_map (FromBuffer (mm_file m)) s m)
        | Ok (Some (off, bs)) => (Ok PyNone, after_store s m off bs)
        end
    end.
Proof.
  intros Hmm Hlen. unfold_op. rewrite Hmm. simpl_state. rewrite Hmm.
  simpl_state.
  change (mapped (log (Seek 0) (env s)) m) with (mapped (env s) m).
  destruct (Nat.ltb_spec (length (mapped (env s) m))
              (sizeof (structType (self s)))); [lia|].
  simpl_state.
  change (mapped (log (FromBuffer (mm_file m)) (log (Seek 0) (env s))) m)
    with (mapped (env s) m).
  destruct (getattr_view_loop _ _ _ _) as [attr|e]; [|done].
  by destruct (setattr_view _ _ _ _ _) as [[[off bs]|]|e].
Qed.

Lemma updateLastUpdate_cases s m :
  mm (self s) = Some m ->
  sizeof (structType (self s)) <= length (mapped (env s) m) ->
  updateLastUpdate P s
  = match getattr_view P (mapped (env s) m)
            (View (structType (self s)) 0) "header" with
    | Raise e => (Raise e, after_map (FromBuffer (mm_file m)) s m)
    | Ok header =>
        match setattr_view P (mapped (env s) m) header "time_stamp"
                (PyFloat (clock (env s))) with
        | Raise e => (Raise e, after_map (FromBuffer (mm_file m)) s m)
        | Ok None => (Ok PyNone, after_map (FromBuffer (mm_file m)) s m)
        | Ok (Some (off, bs)) => (Ok PyNone, after_store s m off bs)
        end
    end.
Proof.
  intros Hmm Hlen. unfold_op. rewrite Hmm. simpl_state. rewrite Hmm.
  simpl_state.
  change (mapped (log (Seek 0) (env s)) m) with (mapped (env s) m).
  destruct (Nat.ltb_spec (length (mapped (env s) m))
              (sizeof (structType (self s)))); [lia|].
  simpl_state.
  change (mapped (log (FromBuffer (mm_file m)) (log (Seek 0) (env s))) m)
    with (mapped (env s) m).
  destruct (getattr_view _ _ _ _) as [attr|e]; [|done].
  by destruct (setattr_view _ _ _ _ _) as [[[off bs]|]|e].
Qed.

(** X12. The writing operations keep the size of the mapped file.  With a
    layout whose fields lie inside their structures, [writeData] (whatever
    the path and the value), [updateLastUpdate] and [clearMappedBuffer]
    leave the mapped file as long as it was, on every exit path: nothing
    is stored beyond the record. *)
Theorem writes_keep_the_size s m key value :
  mm (self s) = Some m ->
  wf_ctype (structType (self s)) = true ->
  length (mapped (env (snd (writeData P key value s))) m)
    = length (mapped (env s) m) /\
  length (mapped (env (snd (updateLastUpdate P s))) m)
    = length (mapped (env s) m) /\
  length (mapped (env (snd (clearMappedBuffer s))) m)
    = length (mapped (env s) m).
Proof.
  intros Hmm Hwf.
  destruct (Nat.lt_ge_cases (length (mapped (env s) m))
              (sizeof (structType (self s)))) as [Hshort|Hlen].
  { destruct (short_mapping_raises_ValueError_aux P s m key value Hmm Hshort)
      as (-> & -> & ->). auto. }
  assert (Hok : view_ok (sizeof (structType (self s)))
                  (View (structType (self s)) 0)) by (split; [done|lia]).
  repeat apply conj.
  - rewrite (writeData_cases _ _ _ _ Hmm Hlen).
    destruct (getattr_view_loop _ _ _ _) as [attr|e] eqn:Hwalk; [|done].
    pose proof (getattr_view_loop_ok _ _ _ _ _ Hok Hwalk) as Hattr.
    destruct (setattr_view _ _ _ _ _) as [[[off bs]|]|e] eqn:Hset; try done.
    pose proof (setattr_view_ok _ _ _ _ _ _ _ Hattr Hset).
    cbn [snd]. rewrite mapped_after_store by done. apply length_poke. lia.
  - rewrite (updateLastUpdate_cases _ _ Hmm Hlen).
    destruct (getattr_view _ _ _ _) as [attr|e] eqn:Hwalk; [|done].
    pose proof (getattr_view_ok _ _ _ _ _ Hok Hwalk) as Hattr.
    destruct (setattr_view _ _ _ _ _) as [[[off bs]|]|e] eqn:Hset; try done.
    pose proof (setattr_view_ok _ _ _ _ _ _ _ Hattr Hset).
    cbn [snd]. rewrite mapped_after_store by done. apply length_poke. lia.
  - rewrite (clearMappedBuffer_open _ _ Hmm Hlen).
    cbn [snd]. rewrite mapped_after_store by done. apply length_poke.
    rewrite length_replicate. lia.
Qed.

End MoreEditing.

Section MoreRoundTrips.
Variable P : platform.

Lemma after_store_ready s m off bs :
  mm (self s) = Some m ->
  sizeof (structType (self s)) <= length (mapped (env s) m) ->
  off + length bs <= length (mapped (env s) m) ->
  let s1 := after_store s m off bs in
  mm (self s1) = Some (Mmap (mm_file m) 0) /\
  structType (self s1) = structType (self s) /\
  sizeof (structType (self s1))
    <= length (mapped (env s1) (Mmap (mm_file m) 0)).
Proof.
  intros Hmm Hlen Hb. cbn zeta. repeat split.
  change (structType (self (after_store s m off bs)))
    with (structType (self s)).
  rewrite mapped_after_store by done. rewrite length_poke; lia.
Qed.

(** X13. A write leaves the other fields alone.  On an open mapping that
    holds the record, after [writeData] of a value the field can hold,
    [readData] on a path to a field whose bytes do not overlap the written
    field's returns what it returned before the write. *)
Theorem writeData_leaves_other_fields s m key off T v key' off' T' :
  mm (self s) = Some m ->
  wf_ctype (structType (self s)) = true ->
  sizeof (structType (self s)) <= length (mapped (env s) m) ->
  resolve (structType (self s)) 0 (split_dot key) = Some (off, T) ->
  representable T v ->
  resolve (structType (self s)) 0 (split_dot key') = Some (off', T') ->
  off' + sizeof T' <= off \/ off + sizeof T <= off' ->
  fst (writeData P key v s) = Ok PyNone /\
  fst (readData P key' (snd (writeData P key v s)))
  = fst (readData P key' s).
Proof.
  intros Hmm Hwf Hlen Hres Hv Hres' Hdis.
  destruct (from_python_to_python P _ _ Hv) as (bs & Hbs & Hl & _).
  destruct (resolve_wf _ _ _ _ _ Hwf Hres) as (_ & _ & Hb).
  rewrite (writeData_field P _ _ _ _ _ _ _ Hmm Hlen Hres Hbs). cbn [fst snd].
  split; [done|].
  destruct (after_store_ready s m off bs Hmm Hlen ltac:(lia)) as (H1 & H2 & H3).
  rewrite (readData_field P _ (Mmap (mm_file m) 0) _ off' T' H1);
    [|by rewrite H2|done|by rewrite H2].
  rewrite (readData_field P _ _ _ _ _ Hmm Hwf Hlen Hres'). cbn [fst].
  rewrite mapped_after_store by done.
  rewrite slice_poke_disjoint; [done|lia|lia].
Qed.

(** X14. The last write wins.  Two [writeData] on the same path, each of a
    value the field can hold, followed by [readData] on that path: the
    second value is read. *)
Theorem writeData_last_write_wins s m key off T v1 v2 :
  mm (self s) = Some m ->
  wf_ctype (structType (self s)) = true ->
  sizeof (structType (self s)) <= length (mapped (env s) m) ->
  resolve (structType (self s)) 0 (split_dot key) = Some (off, T) ->
  representable T v1 -> representable T v2 ->
  let s1 := snd (writeData P key v1 s) in
  let s2 := snd (writeData P key v2 s1) in
  fst (writeData P key v2 s1) = Ok PyNone /\
  fst (readData P key s2) = Ok v2.
Proof.
  intros Hmm Hwf Hlen Hres Hv1 Hv2. cbn zeta.
  destruct (from_python_to_python P _ _ Hv1) as (b1 & Hb1 & Hl1 & _).
  destruct (from_python_to_python P _ _ Hv2) as (b2 & Hb2 & Hl2 & Hback).
  destruct (resolve_wf _ _ _ _ _ Hwf Hres) as (_ & _ & Hb).
  rewrite (writeData_field P _ _ _ _ _ _ _ Hmm Hlen Hres Hb1). cbn [snd].
  destruct (after_store_ready s m off b1 Hmm Hlen ltac:(lia)) as (H1 & H2 & H3).
  set (s1 := after_store s m off b1) in *.
  assert (Hres1 : resolve (structType (self s1)) 0 (split_dot key)
                  = Some (off, T)) by (by rewrite H2).
  rewrite (writeData_field P _ _ _ _ _ _ _ H1 H3 Hres1 Hb2). cbn [fst snd].
  split; [done|].
  by rewrite (readData_after_store P s1 _ key off T v2 b2 H1).
Qed.

(** X15. The time stamp round trip.  On an open mapping that holds the
    record, whose header has the [time_stamp] field, [updateLastUpdate]
    followed by [getLastUpdate] returns the reading of the clock at the
    update. *)
Theorem updateLastUpdate_then_getLastUpdate s m off :
  mm (self s) = Some m ->
  wf_ctype (structType (self s)) = true ->
  sizeof (structType (self s)) <= length (mapped (env s) m) ->
  resolve (structType (self s)) 0 ["header"; "time_stamp"] = Some (off, c_double) ->
  (0 <= clock (env s) < 2 ^ 64)%Z ->
  fst (updateLastUpdate P s) = Ok PyNone /\
  fst (getLastUpdate P (snd (updateLastUpdate P s)))
  = Ok (PyFloat (clock (env s))).
Proof.
  intros Hmm Hwf Hlen Hres Hclock.
  destruct (resolve_wf _ _ _ _ _ Hwf Hres) as (_ & _ & Hb). simpl in Hb.
  rewrite (updateLastUpdate_field P _ _ _ Hmm Hlen Hres). cbn [fst snd].
  split; [done|].
  set (ts := le_split 8 (clock (env s))).
  assert (Lts : length ts = 8) by apply length_le_split.
  destruct (after_store_ready s m off ts Hmm Hlen ltac:(lia)) as (H1 & H2 & H3).
  rewrite (getLastUpdate_open P _ _ H1).
  rewrite (readData_field P _ (Mmap (mm_file m) 0) _ off c_double H1);
    [|by rewrite H2|done|by rewrite H2].
  cbn [fst to_python sizeof]. rewrite mapped_after_store by done.
  rewrite <- Lts at 1. rewrite slice_poke by lia.
  unfold ts. rewrite le_combine_split. by rewrite Z.mod_small.
Qed.

Lemma to_python_zeros T :
  wf_ctype T = true ->
  to_python T (replicate (sizeof T) Byte.x00) = zero_value T.
Proof.
  destruct T as [sg w| |n sz fs|n]; simpl; intros Hwf; try done.
  2:{ by destruct n. }
  rewrite le_combine_zeros. destruct sg; [|done].
  apply Nat.ltb_lt in Hwf. unfold signed_of.
  destruct (Z.ltb_spec 0 (2 ^ (8 * Z.of_nat w - 1))) as [_|Hle]; [done|].
  assert (0 < 2 ^ (8 * Z.of_nat w - 1))%Z by (apply Z.pow_pos_nonneg; lia).
  lia.
Qed.

(** X16. After [clearMappedBuffer] every field reads as zero.  On an open
    mapping that holds the record (and possibly more), after
    [clearMappedBuffer], [readData] on any path that resolves in the layout
    returns 0 for an integer field, 0.0 for a double, the all-zero
    instance for a structure and the empty [bytes] for a byte array; in
    particular [getLastUpdate] returns 0.0. *)
Theorem clearMappedBuffer_zeroes_every_field s m key off T :
  mm (self s) = Some m ->
  wf_ctype (structType (self s)) = true ->
  sizeof (structType (self s)) <= length (mapped (env s) m) ->
  resolve (structType (self s)) 0 (split_dot key) = Some (off, T) ->
  fst (clearMappedBuffer s) = Ok PyNone /\
  fst (readData P key (snd (clearMappedBuffer s))) = Ok (zero_value T) /\
  (key = "header.time_stamp" -> T = c_double ->
   fst (getLastUpdate P (snd (clearMappedBuffer s))) = Ok (PyFloat 0)).
Proof.
  intros Hmm Hwf Hlen Hres.
  destruct (resolve_wf _ _ _ _ _ Hwf Hres) as (HwfT & _ & Hb).
  rewrite (clearMappedBuffer_open _ _ Hmm Hlen). cbn [fst snd].
  set (zs := replicate (sizeof (structType (self s))) Byte.x00).
  assert (Lzs : length zs = sizeof (structType (self s)))
    by apply length_replicate.
  destruct (after_store_ready s m 0 zs Hmm Hlen ltac:(lia)) as (H1 & H2 & H3).
  assert (Hread : fst (readData P key (after_store s m 0 zs))
                  = Ok (zero_value T)).
  { rewrite (readData_field P _ (Mmap (mm_file m) 0) _ off T H1);
      [|by rewrite H2|done|by rewrite H2].
    cbn [fst]. rewrite mapped_after_store by done.
    change off with (0 + off) at 1.
    rewrite slice_poke_inner by lia.
    unfold zs. rewrite slice_zeros by lia. by rewrite to_python_zeros. }
  repeat split; [done|].
  intros -> ->. by rewrite (getLastUpdate_open P _ _ H1).
Qed.

(** X17. A value of the wrong type is refused and nothing is stored.  On
    an open mapping that holds the record, [writeData] on a path that
    resolves to a field with a value of a type the field's setter refuses (a
    float, [None], a structure instance or a [bytes] for an integer field;
    [None], a structure instance or a [bytes] for a double; an [int], a
    float, [None] or a [bytes] for a structure field; an [int], a float,
    [None] or a structure instance for a byte array) raises [TypeError] and
    leaves every file as it was.  Tuples, booleans and the other objects are
    not among these values. *)
Theorem writeData_wrong_type_raises_TypeError s m key off T v :
  mm (self s) = Some m ->
  sizeof (structType (self s)) <= length (mapped (env s) m) ->
  resolve (structType (self s)) 0 (split_dot key) = Some (off, T) ->
  refused T v = true ->
  fst (writeData P key v s) = Raise TypeError /\
  files (env (snd (writeData P key v s))) = files (env s).
Proof.
  intros Hmm Hlen Hres Href.
  assert (Hfp : from_python P T v = Raise TypeError).
  { by destruct T as [sg w| |n sz fs|n], v as [|z|b|t' bs|r|bb]. }
  rewrite (writeData_cases P _ _ _ _ Hmm Hlen).
  destruct (resolve_last _ _ _ _ (split_dot_nonempty key) Hres)
    as (o' & T' & f & Hpre & Hf & -> & ->).
  rewrite (getattr_view_loop_resolve P _ _ _ _ _ _ Hpre
             (field_lookup_structure _ _ _ Hf)).
  unfold setattr_view. rewrite Hf, Hfp. done.
Qed.

(** X18. An integer out of the field's range is not refused: it wraps.  On
    an open mapping that holds the record, [writeData] of any [int] on a
    path to an integer field of [w] bytes returns normally, and [readData]
    then returns the value modulo 2^(8w), read as signed for a signed
    field. *)
Theorem writeData_integer_wraps s m key off sg w z :
  mm (self s) = Some m ->
  wf_ctype (structType (self s)) = true ->
  sizeof (structType (self s)) <= length (mapped (env s) m) ->
  resolve (structType (self s)) 0 (split_dot key) = Some (off, c_int sg w) ->
  fst (writeData P key (PyInt z) s) = Ok PyNone /\
  fst (readData P key (snd (writeData P key (PyInt z) s)))
  = Ok (PyInt (if sg then signed_of w (z mod 2 ^ (8 * Z.of_nat w))
               else (z mod 2 ^ (8 * Z.of_nat w))%Z)).
Proof.
  intros Hmm Hwf Hlen Hres.
  destruct (resolve_wf _ _ _ _ _ Hwf Hres) as (_ & _ & Hb). simpl in Hb.
  rewrite (writeData_field P _ _ _ _ _ (PyInt z) (le_split w z)
             Hmm Hlen Hres eq_refl).
  cbn [fst snd]. split; [done|].
  assert (Ll : length (le_split w z) = w) by apply length_le_split.
  destruct (after_store_ready s m off (le_split w z) Hmm Hlen ltac:(lia))
    as (H1 & H2 & H3).
  rewrite (readData_field P _ (Mmap (mm_file m) 0) _ off (c_int sg w) H1);
    [|by rewrite H2|done|by rewrite H2].
  cbn [fst to_python sizeof]. rewrite mapped_after_store by done.
  assert (Hs : slice off w (poke off (le_split w z) (mapped (env s) m))
               = le_split w z).
  { rewrite <- Ll at 1. apply slice_poke. lia. }
  rewrite Hs, le_combine_split.
  by replace (Z.of_nat w * 8)%Z with (8 * Z.of_nat w)%Z by lia.
Qed.

End MoreRoundTrips.

(** ** Further properties: the master mapping *)

Section MasterMapping.

(** X20. What [openMemory] does with the backing file.  If the file is
    absent or not writable it raises [OSError] and sets nothing.  If the
    file is empty it raises [ValueError] with [fs_master] already set to the
    open file object and [mm_master] as it was.  Otherwise it returns with
    the file object and a mapping of that file, both open. *)
Theorem openMemory_outcomes a w h :
  (files w !! mmapFilePath a = None \/ mmapFilePath a ∈ denied w ->
   openMemory a w h = (Raise OSError, h)) /\
  (files w !! mmapFilePath a = Some [] -> mmapFilePath a ∉ denied w ->
   openMemory a w h
   = (Raise ValueError,
      Handles (Some (FileObject (mmapFilePath a) false)) (mm_master h))) /\
  (forall b bs,
     files w !! mmapFilePath a = Some (b :: bs) -> mmapFilePath a ∉ denied w ->
     openMemory a w h
     = (Ok tt, Handles (Some (FileObject (mmapFilePath a) false))
                       (Some (MasterMmap (mmapFilePath a) false)))).
Proof.
  unfold openMemory, open_rb_plus, mmap_whole. repeat split.
  - intros [Hno|Hden].
    + rewrite bool_decide_eq_false_2; [done|].
      by apply not_elem_of_dom.
    + destruct (bool_decide _); [|done]. by rewrite decide_True.
  - intros Hf Hden. rewrite bool_decide_eq_true_2 by (apply elem_of_dom; eauto).
    rewrite decide_False by done. cbn [fo_path]. by rewrite Hf.
  - intros b bs Hf Hden.
    rewrite bool_decide_eq_true_2 by (apply elem_of_dom; eauto).
    rewrite decide_False by done. cbn [fo_path]. by rewrite Hf.
Qed.

(** X21. What [closeMemory] does.  A [closeMemory] that returns leaves
    nothing open, the file object closed and the mapping [None] or closed
    before, and a further [closeMemory] then returns and changes nothing.
    After an [openMemory] that returned, [closeMemory] returns with the
    mapping [None] and the file object of the backing file closed when no
    ctypes object laid over the master mapping is alive; when one is, it
    raises [BufferError] and leaves both as they were, the file object still
    open.  On an object on which [mm_master] was never assigned it raises
    [AttributeError]. *)
Theorem closeMemory_outcomes a w h view_alive o :
  (forall o', closeMemory view_alive o = (Ok tt, o') ->
     (forall f, attr_fs_master o' = Some (Some f) -> fo_closed f = true) /\
     (forall m, attr_mm_master o' = Some (Some m) -> master_closed m = true) /\
     forall alive', closeMemory alive' o' = (Ok tt, o')) /\
  (fst (openMemory a w h) = Ok tt ->
   closeMemory false (assigned (snd (openMemory a w h)))
   = (Ok tt, Attributes (Some (Some (FileObject (mmapFilePath a) true)))
               (Some None)) /\
   closeMemory true (assigned (snd (openMemory a w h)))
   = (Raise BufferError,
      Attributes (Some (Some (FileObject (mmapFilePath a) false)))
        (Some (Some (MasterMmap (mmapFilePath a) false))))) /\
  (attr_mm_master o = None ->
   closeMemory view_alive o = (Raise (AttributeError "mm_master"), o)).
Proof.
  split; [|split].
  - destruct o as [ofs omm]. unfold closeMemory. cbn [attr_mm_master attr_fs_master].
    destruct omm as [[m|]|]; [| |intros o' H; by inversion H].
    + destruct (master_closed m) eqn:E; cbn [negb].
      * destruct ofs as [[f|]|]; intros o' H; inversion H; subst;
          cbn [attr_mm_master attr_fs_master]; rewrite ?E; cbn [negb fo_path];
          repeat split; intros; by simplify_eq/=.
      * destruct view_alive; [intros o' H; by inversion H|].
        destruct ofs as [[f|]|]; intros o' H; inversion H; subst;
          cbn [attr_mm_master attr_fs_master fo_path];
          repeat split; intros; by simplify_eq/=.
    + destruct ofs as [[f|]|]; intros o' H; inversion H; subst;
        cbn [attr_mm_master attr_fs_master fo_path];
        repeat split; intros; by simplify_eq/=.
  - unfold openMemory, open_rb_plus, mmap_whole.
    destruct (bool_decide _); [|done]. destruct (decide _); [done|].
    cbn [fo_path]. by destruct (default [] _).
  - intros Hno. unfold closeMemory. by rewrite Hno.
Qed.

End MasterMapping.

(** ** The claims on the concrete store *)

Section Checks.
Import Telemetry.

Lemma record0_is_created :
  fst created = Ok closed /\ files (snd created) !! path = Some record0.
Proof. split; vm_compute; reflexivity. Qed.





(** C3 fails on the code: [readData] on an open mapping seeks and copies the
    mapping with the lock never acquired. *)
Lemma readData_touches_mapping_unlocked :
  events_of (readData cpython "speed") s_open = [Seek 0; FromBufferCopy path] /\
  lock_disciplined (fastenerFilePath (self s_open)) false
    (events_of (readData cpython "speed") s_open) = false.
Proof. split; vm_compute; reflexivity. Qed.

Lemma create_without_force_keeps_file_witness :
  let once :=
    DataStructMmapManager_init cpython "Telemetry" "car1" None None
      true false stored in
  once = (Ok closed, stored) /\
  files (snd once) !! mmapFilePath closed = files stored !! mmapFilePath closed /\
  DataStructMmapManager_init cpython "Telemetry" "car1" None None
    true false (snd once) = once.
Proof.
  apply (create_without_force_keeps_file cpython stored "Telemetry" "car1"
           None None closed).
  - reflexivity.
  - vm_compute. reflexivity.
Defined.







Lemma every_operation_reseeks_witness :
  (exists rest, events_of (readData cpython "speed") s_open = Seek 0 :: rest) /\
  (forall pos, readData cpython "speed" (with_pos pos s_open)
               = readData cpython "speed" s_open) /\
  (exists rest, events_of clearMappedBuffer s_open = Seek 0 :: rest) /\
  (forall pos, writeData cpython "speed" (PyFloat f42_5) (with_pos pos s_open)
               = writeData cpython "speed" (PyFloat f42_5) s_open).
Proof.
  pose proof (every_operation_reseeks cpython "speed" (PyFloat f42_5))
    as (_ & Hread & _ & _ & Hwrite & _ & Hclear).
  destruct (Hread s_open m7 eq_refl) as [H1 H2].
  destruct (Hclear s_open m7 eq_refl) as [H3 _].
  destruct (Hwrite s_open m7 eq_refl) as [_ H4].
  auto.
Defined.

Lemma editor_without_mapping_is_noop_witness :
  writeData cpython "speed" (PyFloat f42_5) s_closed = (Ok PyNone, s_closed) /\
  updateLastUpdate cpython s_closed = (Ok PyNone, s_closed) /\
  clearMappedBuffer s_closed = (Ok PyNone, s_closed).
Proof.
  apply (editor_without_mapping_is_noop cpython s_closed "speed" (PyFloat f42_5)).
  reflexivity.
Defined.

End Checks.

(** ** The further properties on the concrete store *)

Section MoreChecks.
Import Telemetry.

Lemma _searchStructType_first_match_witness :
  _searchStructType shadowed "Telemetry" = Ok Telemetry.
Proof.
  apply (_searchStructType_first_match shadowed "Telemetry"
           [Header] Telemetry [Telemetry2]).
  - reflexivity.
  - intros st0 [<-|[]]. discriminate.
  - reflexivity.
Defined.

Lemma Manager_init_world_unchanged_witness :
  snd (DataStructMmapManager_init cpython "Telemetry" "car1" None None
         false true unwritable) = unwritable.
Proof.
  apply (Manager_init_world_unchanged cpython unwritable "Telemetry" "car1"
           None None false true).
  left. reflexivity.
Defined.

Lemma created_store_is_default_record_witness :
  exists bs,
    DataStructMmapManager_init cpython "Telemetry" "car1" None None
      true false empty_world
    = (Ok closed, log (OpenWrite (mmapFilePath closed))
                    (set_files (<[mmapFilePath closed := bs]> (files empty_world))
                       empty_world)) /\
    length bs = 32 /\
    slice (0 + 0) 4 bs = le_split 4 0x1128 /\
    slice (0 + 8) 8 bs = le_split 8 (clock empty_world) /\
    (forall i, i < 32 -> i < 0 \/ 0 + 16 <= i -> bs !! i = Some Byte.x00).
Proof.
  apply (created_store_is_default_record cpython empty_world "Telemetry" "car1"
           None None false closed "Telemetry" 32 "header" 0
           [Field "speed" 16 c_double; Field "count" 24 (c_int true 4)]
           "MmapStructureHeader" 16 "magic" 0 false 4 "time_stamp" 8 []).
  - reflexivity.
  - reflexivity.
  - reflexivity.
  - lia.
  - lia.
  - lia.
  - right. vm_compute. reflexivity.
  - intros H. vm_compute in H. discriminate H.
Defined.

Lemma short_mapping_raises_ValueError_witness :
  let s' := State (set_mm (Some (Mmap (mm_file m7) 0)) (self s_short))
                  (log (Seek 0) (env s_short)) in
  getLastUpdate cpython s_short = (Raise ValueError, s') /\
  readData cpython "speed" s_short = (Raise ValueError, s') /\
  readMappedBuffer s_short = (Raise ValueError, s') /\
  updateLastUpdate cpython s_short = (Raise ValueError, s') /\
  writeData cpython "speed" (PyFloat f42_5) s_short = (Raise ValueError, s') /\
  referMappedBuffer s_short = (Raise ValueError, s') /\
  clearMappedBuffer s_short = (Raise ValueError, s').
Proof.
  apply (short_mapping_raises_ValueError cpython s_short m7 "speed"
           (PyFloat f42_5)).
  - reflexivity.
  - vm_compute. lia.
Defined.

Lemma operations_keep_the_accessor_witness :
  let a' := set_mm (Some (Mmap (mm_file m7) 0)) (self s_open) in
  self (snd (getLastUpdate cpython s_open)) = a' /\
  self (snd (readData cpython "missing" s_open)) = a' /\
  self (snd (readMappedBuffer s_open)) = a' /\
  self (snd (updateLastUpdate cpython s_open)) = a' /\
  self (snd (writeData cpython "missing" (PyInt 1) s_open)) = a' /\
  self (snd (referMappedBuffer s_open)) = a' /\
  self (snd (clearMappedBuffer s_open)) = a'.
Proof.
  apply (operations_keep_the_accessor cpython s_open m7 "missing" (PyInt 1)).
  reflexivity.
Defined.

Lemma writes_stay_in_the_mapped_file_witness :
  files (env (snd (writeData cpython "speed" (PyFloat f42_5) s_open))) !! lockfile
    = files (env s_open) !! lockfile /\
  files (env (snd (updateLastUpdate cpython s_open))) !! lockfile
    = files (env s_open) !! lockfile /\
  files (env (snd (clearMappedBuffer s_open))) !! lockfile
    = files (env s_open) !! lockfile.
Proof.
  apply (writes_stay_in_the_mapped_file cpython s_open "speed" (PyFloat f42_5)
           lockfile).
  intros m H. inversion H. discriminate.
Defined.

Lemma reads_without_mapping_witness :
  readData cpython "speed" s_closed = (Raise (AttributeError "seek"), s_closed) /\
  readMappedBuffer s_closed = (Ok PyNone, s_closed) /\
  referMappedBuffer s_closed = (Ok None, s_closed).
Proof.
  apply (reads_without_mapping cpython s_closed "speed"). reflexivity.
Defined.

Lemma readData_walks_the_snapshot_witness :
  readData cpython "header.time_stamp" s_open
  = match readMappedBuffer s_open with
    | (Ok snapshot, s') =>
        (getattr_loop cpython snapshot (split_dot "header.time_stamp"), s')
    | (Raise e, s') => (Raise e, s')
    end.
Proof.
  apply (readData_walks_the_snapshot cpython s_open m7 "header.time_stamp").
  reflexivity.
Defined.

Lemma writes_keep_the_size_witness :
  length (mapped (env (snd (writeData cpython "count" (PyInt (2 ^ 40)) s_long))) m7)
    = length (mapped (env s_long) m7) /\
  length (mapped (env (snd (updateLastUpdate cpython s_long))) m7)
    = length (mapped (env s_long) m7) /\
  length (mapped (env (snd (clearMappedBuffer s_long))) m7)
    = length (mapped (env s_long) m7).
Proof.
  apply (writes_keep_the_size cpython s_long m7 "count" (PyInt (2 ^ 40))).
  - reflexivity.
  - reflexivity.
Defined.

Lemma writeData_leaves_other_fields_witness :
  fst (writeData cpython "speed" (PyFloat f42_5) s_open) = Ok PyNone /\
  fst (readData cpython "header.time_stamp"
         (snd (writeData cpython "speed" (PyFloat f42_5) s_open)))
  = fst (readData cpython "header.time_stamp" s_open).
Proof.
  apply (writeData_leaves_other_fields cpython s_open m7 "speed" 16 c_double
           (PyFloat f42_5) "header.time_stamp" 8 c_double).
  - reflexivity.
  - reflexivity.
  - vm_compute. lia.
  - reflexivity.
  - vm_compute. split; [discriminate | reflexivity].
  - reflexivity.
  - left. simpl. lia.
Defined.

Lemma writeData_last_write_wins_witness :
  let s1 := snd (writeData cpython "count" (PyInt 7) s_open) in
  let s2 := snd (writeData cpython "count" (PyInt (-3)) s1) in
  fst (writeData cpython "count" (PyInt (-3)) s1) = Ok PyNone /\
  fst (readData cpython "count" s2) = Ok (PyInt (-3)).
Proof.
  apply (writeData_last_write_wins cpython s_open m7 "count" 24 (c_int true 4)
           (PyInt 7) (PyInt (-3))).
  - reflexivity.
  - reflexivity.
  - vm_compute. lia.
  - reflexivity.
  - vm_compute. split; [discriminate | reflexivity].
  - vm_compute. split; [discriminate | reflexivity].
Defined.

Lemma updateLastUpdate_then_getLastUpdate_witness :
  fst (updateLastUpdate cpython s_open) = Ok PyNone /\
  fst (getLastUpdate cpython (snd (updateLastUpdate cpython s_open)))
  = Ok (PyFloat (clock (env s_open))).
Proof.
  apply (updateLastUpdate_then_getLastUpdate cpython s_open m7 8).
  - reflexivity.
  - reflexivity.
  - vm_compute. lia.
  - reflexivity.
  - vm_compute. split; [discriminate | reflexivity].
Defined.

Lemma clearMappedBuffer_zeroes_every_field_witness :
  fst (clearMappedBuffer s_long) = Ok PyNone /\
  fst (readData cpython "header.time_stamp" (snd (clearMappedBuffer s_long)))
  = Ok (zero_value c_double) /\
  ("header.time_stamp" = "header.time_stamp" -> c_double = c_double ->
   fst (getLastUpdate cpython (snd (clearMappedBuffer s_long)))
   = Ok (PyFloat 0)).
Proof.
  apply (clearMappedBuffer_zeroes_every_field cpython s_long m7
           "header.time_stamp" 8 c_double).
  - reflexivity.
  - reflexivity.
  - vm_compute. lia.
  - reflexivity.
Defined.

Lemma writeData_wrong_type_raises_TypeError_witness :
  fst (writeData cpython "count" (PyFloat f42_5) s_open) = Raise TypeError /\
  files (env (snd (writeData cpython "count" (PyFloat f42_5) s_open)))
  = files (env s_open).
Proof.
  apply (writeData_wrong_type_raises_TypeError cpython s_open m7 "count" 24
           (c_int true 4) (PyFloat f42_5)).
  - reflexivity.
  - vm_compute. lia.
  - reflexivity.
  - reflexivity.
Defined.

Lemma writeData_integer_wraps_witness :
  fst (writeData cpython "count" (PyInt (2 ^ 31)) s_open) = Ok PyNone /\
  fst (readData cpython "count"
         (snd (writeData cpython "count" (PyInt (2 ^ 31)) s_open)))
  = Ok (PyInt (if true then signed_of 4 (2 ^ 31 mod 2 ^ (8 * Z.of_nat 4))
               else (2 ^ 31 mod 2 ^ (8 * Z.of_nat 4))%Z)).
Proof.
  apply (writeData_integer_wraps cpython s_open m7 "count" 24 true 4 (2 ^ 31)).
  - reflexivity.
  - reflexivity.
  - vm_compute. lia.
  - reflexivity.
Defined.

Lemma writeData_unknown_last_segment_witness :
  fst (writeData cpython "header.nonexistent" (PyInt 1) s_open)
  = result_map (fun _ => PyNone)
      (object_setattr cpython
         (PyStruct Header (slice 0 (sizeof Header) (mapped (env s_open) m7)))
         (List.last (split_dot "header.nonexistent") EmptyString) (PyInt 1)) /\
  files (env (snd (writeData cpython "header.nonexistent" (PyInt 1) s_open)))
  = files (env s_open).
Proof.
  apply (writeData_unknown_last_segment cpython s_open m7 "header.nonexistent"
           (PyInt 1) 0 Header).
  - reflexivity.
  - vm_compute. lia.
  - reflexivity.
  - reflexivity.
  - reflexivity.
Defined.

Lemma openMemory_outcomes_witness :
  openMemory closed unwritable h0 = (Raise OSError, h0) /\
  openMemory closed emptied h0
  = (Raise ValueError,
     Handles (Some (FileObject (mmapFilePath closed) false)) (mm_master h0)) /\
  openMemory closed stored h0
  = (Ok tt, Handles (Some (FileObject (mmapFilePath closed) false))
                    (Some (MasterMmap (mmapFilePath closed) false))).
Proof.
  split; [|split].
  - apply (proj1 (openMemory_outcomes closed unwritable h0)).
    left. vm_compute. reflexivity.
  - apply (proj1 (proj2 (openMemory_outcomes closed emptied h0))).
    + vm_compute. reflexivity.
    + intros H. vm_compute in H. discriminate H.
  - apply (proj2 (proj2 (openMemory_outcomes closed stored h0))
             (hd Byte.x00 record0) (tl record0)).
    + vm_compute. reflexivity.
    + intros H. vm_compute in H. discriminate H.
Defined.

Lemma closeMemory_outcomes_witness :
  closeMemory false (assigned (snd (openMemory closed stored h0)))
  = (Ok tt, Attributes (Some (Some (FileObject path true))) (Some None)) /\
  closeMemory true (assigned (snd (openMemory closed stored h0)))
  = (Raise BufferError,
     Attributes (Some (Some (FileObject path false)))
       (Some (Some (MasterMmap path false)))) /\
  closeMemory false (Attributes (Some (Some (FileObject path false))) None)
  = (Raise (AttributeError "mm_master"),
     Attributes (Some (Some (FileObject path false))) None).
Proof.
  destruct (closeMemory_outcomes closed stored h0 false
              (Attributes (Some (Some (FileObject path false))) None))
    as (_ & Hopen & Hmissing).
  destruct Hopen as [Hquiet Hbusy]; [vm_compute; reflexivity|].
  split; [exact Hquiet|]. split; [exact Hbusy|].
  apply Hmissing. reflexivity.
Defined.

Lemma clearMappedBuffer_bytes_witness :
  mapped (env (snd (clearMappedBuffer s_long))) m7
  = replicate (sizeof (structType (self s_long))) Byte.x00
    ++ drop (sizeof (structType (self s_long))) (mapped (env s_long) m7).
Proof.
  apply (clearMappedBuffer_bytes s_long m7).
  - reflexivity.
  - vm_compute. lia.
Defined.

End MoreChecks.
